(** * tcp_connect v0.99: [main] as a trace-producing program

    The utility is one straight-line [main]: it validates its arguments,
    resolves the host, creates a non-blocking socket, issues [connect],
    waits with [select] and reads the pending error with [getsockopt].

    The embedding keeps that shape.  Every library and system call the C
    code makes becomes an action of a small monad that threads the two
    process-wide error variables ([errno], [h_errno]) and appends to a
    log of observable events; [exit] aborts the rest of the computation.
    What the operating system answers is not decided here: a [World]
    supplies the result of each call, so a statement quantified over all
    worlds holds for every behaviour of resolver, kernel and network.

    Two things are fixed rather than left to the world.  Writes to the
    two standard streams succeed and leave [errno] alone.  A descriptor
    set has bits for the descriptors 0 to [FD_SETSIZE - 1] only; for a
    handle outside that range the C macros are undefined, and the
    properties that speak of the contents of the sets assume a handle
    in range. *)

From Stdlib Require Import ZArith List String Ascii Bool Lia DecimalString.
Import ListNotations.

Local Open Scope string_scope.
Local Open Scope list_scope.
Local Open Scope Z_scope.

(** ** The C library as the program uses it *)

Module Libc.

(** Character classes of the "C" locale. *)
Definition code (c : ascii) : Z := Z.of_N (N_of_ascii c).

Definition isspace (c : ascii) : bool :=
  (code c =? 32) || ((9 <=? code c) && (code c <=? 13)).

Definition isdigit (c : ascii) : bool :=
  (48 <=? code c) && (code c <=? 57).

Fixpoint skip_spaces (s : string) : string :=
  match s with
  | String c r => if isspace c then skip_spaces r else s
  | EmptyString => s
  end.

(** Value of the longest prefix of decimal digits, accumulated left to
    right; a string that starts with no digit yields [acc]. *)
Fixpoint digits (acc : Z) (s : string) : Z :=
  match s with
  | String c r => if isdigit c then digits (10 * acc + (code c - 48)) r else acc
  | EmptyString => acc
  end.

Definition LONG_MAX : Z := 2 ^ 63 - 1.
Definition LONG_MIN : Z := - 2 ^ 63.

(** [strtol(s, NULL, 10)]: optional white space, optional sign, digits;
    a value outside [long] saturates (LP64). *)
Definition strtol (s : string) : Z :=
  let s := skip_spaces s in
  let '(neg, s) :=
    match s with
    | String c r =>
        if Ascii.eqb c "-" then (true, r)
        else if Ascii.eqb c "+" then (false, r)
        else (false, s)
    | EmptyString => (false, s)
    end in
  let v := digits 0 s in
  let v := if neg then - v else v in
  Z.max LONG_MIN (Z.min LONG_MAX v).

(** Conversion of an integer to the 32-bit [int]. *)
Definition to_int (z : Z) : Z := (z + 2 ^ 31) mod 2 ^ 32 - 2 ^ 31.

(** [atoi(s)] is [(int) strtol(s, NULL, 10)]. *)
Definition atoi (s : string) : Z := to_int (strtol s).

(** The cast [(uint16_t) x]. *)
Definition to_uint16 (x : Z) : Z := x mod 2 ^ 16.

(** Exchange of the two bytes of a 16-bit value. *)
Definition bswap16 (x : Z) : Z :=
  Z.lor (Z.shiftl (Z.land x 255) 8) (Z.land (Z.shiftr x 8) 255).

(** [htons] and [ntohs]: the identity on a big-endian host, the byte
    exchange on a little-endian one. *)
Definition htons (big_endian : bool) (x : Z) : Z :=
  if big_endian then x else bswap16 x.

Definition ntohs (big_endian : bool) (x : Z) : Z :=
  if big_endian then x else bswap16 x.

(** The line terminator written as a backslash-n escape in the C source. *)
Definition LF : string := String (ascii_of_nat 10) EmptyString.

(** Arguments of a formatted print: [%s] takes a string, [%d] an [int]. *)
Inductive Arg : Type :=
| AStr (s : string)
| AInt (n : Z).

Definition string_of_Z (n : Z) : string :=
  NilZero.string_of_int (Z.to_int n).

(** The two conversions the program uses, [%s] and [%d]; any other
    character of the format is copied. *)
Fixpoint sprintf (fmt : string) (args : list Arg) : string :=
  match fmt with
  | EmptyString => EmptyString
  | String c rest =>
      if Ascii.eqb c "%" then
        match rest with
        | String d rest' =>
            if Ascii.eqb d "s" then
              match args with
              | AStr s :: args' => (s ++ sprintf rest' args')%string
              | _ => EmptyString
              end
            else if Ascii.eqb d "d" then
              match args with
              | AInt n :: args' => (string_of_Z n ++ sprintf rest' args')%string
              | _ => EmptyString
              end
            else String c (String d (sprintf rest' args))
        | EmptyString => String c EmptyString
        end
      else String c (sprintf rest args)
  end.

(** Descriptor sets: [FD_ZERO], [FD_SET], [FD_ISSET].  An [fd_set] has
    one bit for each descriptor from 0 to [FD_SETSIZE - 1], here the
    list of the descriptors whose bit is set.  For a descriptor outside
    that range the macros index past the array, which C leaves
    undefined: the set has no bit for it, so [FD_SET] adds nothing and
    [FD_ISSET] finds nothing. *)
Definition FD_SETSIZE : Z := 1024.
Definition fd_set : Type := list Z.
Definition has_bit (fd : Z) : bool := (0 <=? fd) && (fd <? FD_SETSIZE).
Definition FD_ZERO : fd_set := [].
Definition FD_SET (fd : Z) (s : fd_set) : fd_set := if has_bit fd then fd :: s else s.
Definition FD_ISSET (fd : Z) (s : fd_set) : bool := has_bit fd && existsb (Z.eqb fd) s.

(** Values of the system headers (Linux). *)
Definition EXIT_SUCCESS : Z := 0.
Definition EXIT_FAILURE : Z := 1.
Definition EINPROGRESS : Z := 115.
Definition AF_INET : Z := 2.
Definition SOCK_STREAM : Z := 1.
Definition F_GETFL : Z := 3.
Definition F_SETFL : Z := 4.
Definition O_NONBLOCK : Z := 2048.
Definition SOL_SOCKET : Z := 1.
Definition SO_ERROR : Z := 4.

End Libc.
Import Libc.

(** ** What the environment answers *)

(** Result of a system call: the returned value and, when the call
    assigns [errno], the value it leaves there.  A successful call may
    leave [errno] untouched ([None]). *)
Record sysret : Type := { rv : Z; rerrno : option Z }.

(** [gethostbyname]: a host entry (of which the program reads [h_addr],
    the first address) or [NULL] with [h_errno] set. *)
Inductive hostent_result : Type :=
| Resolved (h_addr : Z)
| Unresolved (herr : Z).

Record sockaddr_in : Type :=
  { sin_family : Z; sin_port : Z; sin_addr : Z }.

Record timeval : Type := { tv_sec : Z; tv_usec : Z }.

(** [select] returns a count (or -1) and overwrites both descriptor sets. *)
Record select_ret : Type :=
  { sel_rv : Z; sel_errno : option Z; sel_read : fd_set; sel_write : fd_set }.

(** [getsockopt] returns 0 or -1 and, when it stores an option value,
    that value. *)
Record sockopt_ret : Type :=
  { opt_rv : Z; opt_errno : option Z; opt_val : option Z }.

Record World : Type :=
  { host_big_endian : bool;
    strerror : Z -> string;
    hstrerror : Z -> string;
    os_gethostbyname : string -> hostent_result;
    os_socket : Z -> Z -> Z -> sysret;
    os_fcntl : Z -> Z -> Z -> sysret;
    os_connect : Z -> sockaddr_in -> sysret;
    os_select : Z -> fd_set -> fd_set -> timeval -> select_ret;
    os_getsockopt : Z -> Z -> Z -> sockopt_ret }.

(** ** Observable events *)

Inductive Stream : Type := stdout | stderr.

(** One entry per call that reaches outside the process, with the
    arguments passed and the answer received. *)
Inductive Event : Type :=
| Write (f : Stream) (text : string)
| Gethostbyname (name : string) (res : hostent_result)
| Socket (domain type protocol : Z) (res : sysret)
| Fcntl (fd cmd arg : Z) (res : sysret)
| Connect (fd : Z) (addr : sockaddr_in) (res : sysret)
| Select (nfds : Z) (readfds writefds : fd_set) (tv : timeval) (res : select_ret)
| Getsockopt (fd level optname : Z) (res : sockopt_ret)
| Close (fd : Z).

(** ** The process monad *)

(** Process state: the two error globals and the log, newest entry first. *)
Record Proc : Type := { errno : Z; h_errno : Z; out : list Event }.

(** A computation either goes on with a value or has called [exit]. *)
Inductive Step (A : Type) : Type :=
| Next (a : A)
| Halt (status : Z).
Arguments Next {A} a.
Arguments Halt {A} status.

Definition M (A : Type) : Type := Proc -> Step A * Proc.

Definition pure {A : Type} (a : A) : M A := fun p => (Next a, p).

Definition bind {A B : Type} (m : M A) (k : A -> M B) : M B :=
  fun p =>
    match m p with
    | (Next a, p') => k a p'
    | (Halt status, p') => (Halt status, p')
    end.

Definition exit {A : Type} (status : Z) : M A := fun p => (Halt status, p).

Declare Scope proc_scope.
Delimit Scope proc_scope with proc.
Notation "x <- m ;; k" := (bind m (fun x => k))
  (at level 61, m at next level, right associativity) : proc_scope.
Notation "m ;; k" := (bind m (fun _ => k))
  (at level 61, right associativity) : proc_scope.
Notation "' pat <- m ;; k" := (bind m (fun x => let 'pat := x in k))
  (at level 61, pat pattern, m at next level, right associativity) : proc_scope.
Local Open Scope proc_scope.

Definition log (e : Event) : M unit :=
  fun p => (Next tt, {| errno := errno p; h_errno := h_errno p; out := e :: out p |}).

Definition get_errno : M Z := fun p => (Next (errno p), p).
Definition get_h_errno : M Z := fun p => (Next (h_errno p), p).

Definition set_errno (e : Z) : M unit :=
  fun p => (Next tt, {| errno := e; h_errno := h_errno p; out := out p |}).

Definition set_h_errno (e : Z) : M unit :=
  fun p => (Next tt, {| errno := errno p; h_errno := e; out := out p |}).

(** Content of a location a call may write to: the value written, or
    the old content when the call leaves the location alone. *)
Definition written (o : option Z) (old : Z) : Z :=
  match o with
  | Some v => v
  | None => old
  end.

Definition assign_errno (e : option Z) : M unit :=
  fun p => (Next tt, {| errno := written e (errno p); h_errno := h_errno p; out := out p |}).

(** The two streams are taken to be open: a write succeeds and leaves
    [errno] as it was. *)
Definition fprintf (f : Stream) (fmt : string) (args : list Arg) : M unit :=
  log (Write f (sprintf fmt args)).

(** ** The program *)

Section Program.

Variable w : World.

Definition gethostbyname (name : string) : M (option Z) :=
  let r := os_gethostbyname w name in
  log (Gethostbyname name r) ;;
  match r with
  | Resolved a => pure (Some a)
  | Unresolved e => set_h_errno e ;; pure None
  end.

Definition socket (domain type protocol : Z) : M Z :=
  let r := os_socket w domain type protocol in
  log (Socket domain type protocol r) ;; assign_errno (rerrno r) ;; pure (rv r).

Definition fcntl (fd cmd arg : Z) : M Z :=
  let r := os_fcntl w fd cmd arg in
  log (Fcntl fd cmd arg r) ;; assign_errno (rerrno r) ;; pure (rv r).

Definition connect (fd : Z) (addr : sockaddr_in) : M Z :=
  let r := os_connect w fd addr in
  log (Connect fd addr r) ;; assign_errno (rerrno r) ;; pure (rv r).

(** Returns the count together with the two sets as [select] left them. *)
Definition select (nfds : Z) (readfds writefds : fd_set) (tv : timeval)
  : M (Z * fd_set * fd_set) :=
  let r := os_select w nfds readfds writefds tv in
  log (Select nfds readfds writefds tv r) ;; assign_errno (sel_errno r) ;;
  pure (sel_rv r, sel_read r, sel_write r).

(** Returns the status together with the content of the option buffer,
    which keeps [optval] when the call stores nothing. *)
Definition getsockopt (fd level optname : Z) (optval : Z) : M (Z * Z) :=
  let r := os_getsockopt w fd level optname in
  log (Getsockopt fd level optname r) ;; assign_errno (opt_errno r) ;;
  pure (opt_rv r, written (opt_val r) optval).

Definition close (fd : Z) : M unit := log (Close fd).

(** The description printed next to an error number:
    [(errno > ZERO) ? strerror(errno) : ""]. *)
Definition errtext (describe : Z -> string) (e : Z) : string :=
  if 0 <? e then describe e else "".

(** The macros of the source. *)
Definition ERROR : Z := -1.
Definition ZERO : Z := 0.
Definition PROGRAM_NAME : string := "tcp_connect".
Definition PROGRAM_VERSION : string := "v0.99".
Definition PROGRAM_AUTHOR : string := "Daniel Bergman".
Definition PROGRAM_DATE : string := "2004-04-27".
Definition DEFAULT_TIMEOUT : Z := 10.

Definition print_usage (binary_name : string) : M unit :=
  fprintf stderr ("A simple utility for checking connections to generic TCP servers" ++ LF) [] ;;
  fprintf stderr ("%s %s %s %s" ++ LF)
    [AStr PROGRAM_NAME; AStr PROGRAM_VERSION; AStr PROGRAM_AUTHOR; AStr PROGRAM_DATE] ;;
  fprintf stderr ("Usage: %s [host] [port] (timeout)" ++ LF) [AStr binary_name] ;;
  fprintf stderr ("Example:" ++ LF ++ LF) [] ;;
  fprintf stderr (" # %s 172.16.10.13 22 " ++ LF ++ LF) [AStr binary_name] ;;
  fprintf stderr (" # %s pseudo 8888 5 " ++ LF ++ LF) [AStr binary_name].

(** [main]: [argc] is the length of [argv]; an entry that is absent
    (only [argv[0]] when the vector is empty) prints as a null [%s].
    The [int] variables hold the values the calls return; [server_sock]
    gets its address from the [memcpy] of [h_addr], and the two
    descriptor sets are built by [FD_ZERO], [FD_SET] and the structure
    copy.  The statements after the last conditional, which no run
    reaches, are kept. *)
Definition main (argv : list string) : M Z :=
  let argc := Z.of_nat (List.length argv) in
  let arg (i : nat) := nth i argv "(null)" in
  if (argc <? 3) || (argc >? 4) then
    print_usage (arg 0%nat) ;;
    pure EXIT_FAILURE
  else
  let port := atoi (arg 2%nat) in
  (if port =? ZERO then
     fprintf stderr ("ERROR: Invalid port: %s" ++ LF) [AStr (arg 2%nat)] ;;
     print_usage (arg 0%nat) ;;
     exit EXIT_FAILURE
   else pure tt) ;;
  timeout <-
    (if argc =? 4 then
       let timeout := atoi (arg 3%nat) in
       if timeout =? ZERO then
         fprintf stderr ("ERROR: Invalid timeout: %s, using default timeout: %d" ++ LF)
           [AStr (arg 3%nat); AInt DEFAULT_TIMEOUT] ;;
         pure DEFAULT_TIMEOUT
       else pure timeout
     else pure DEFAULT_TIMEOUT) ;;
  host_entry <- gethostbyname (arg 1%nat) ;;
  h_addr <-
    match host_entry with
    | None =>
        h <- get_h_errno ;;
        fprintf stderr ("ERROR: Unable to resolve host: %s h_errno=%d (%s)" ++ LF)
          [AStr (arg 1%nat); AInt h; AStr (errtext (hstrerror w) h)] ;;
        exit EXIT_FAILURE
    | Some a => pure a
    end ;;
  socket_handle <- socket AF_INET SOCK_STREAM ZERO ;;
  (if socket_handle =? ERROR then
     e <- get_errno ;;
     fprintf stderr ("ERROR: Unable to initialize socket, errno=%d (%s)" ++ LF)
       [AInt e; AStr (errtext (strerror w) e)] ;;
     exit EXIT_FAILURE
   else pure tt) ;;
  let server_sock :=
    {| sin_family := AF_INET;
       sin_port := htons (host_big_endian w) (to_uint16 port);
       sin_addr := h_addr |} in
  socket_flags <- fcntl socket_handle F_GETFL ZERO ;;
  (if socket_flags =? ERROR then
     e <- get_errno ;;
     fprintf stderr ("ERROR: Unable to retrieve current socket flags, errno=%d (%s)" ++ LF)
       [AInt e; AStr (errtext (strerror w) e)] ;;
     exit EXIT_FAILURE
   else pure tt) ;;
  r <- fcntl socket_handle F_SETFL (Z.lor socket_flags O_NONBLOCK) ;;
  (if r =? ERROR then
     e <- get_errno ;;
     fprintf stderr ("ERROR: Unable to setup non_blocking socket. errno=%d (%s)" ++ LF)
       [AInt e; AStr (errtext (strerror w) e)] ;;
     exit EXIT_FAILURE
   else pure tt) ;;
  let read_fdset := FD_SET socket_handle FD_ZERO in
  let write_fdset := read_fdset in
  let time_struct := {| tv_sec := timeout; tv_usec := ZERO |} in
  r <- connect socket_handle server_sock ;;
  (if r <? ZERO then
     e <- get_errno ;;
     if e =? EINPROGRESS then
       set_errno ZERO
     else
       fprintf stderr
         ("ERROR: Unable to connect to host: %s on port: %d, timeout: %d, errno=%d (%s)" ++ LF)
         [AStr (arg 1%nat); AInt port; AInt timeout; AInt e; AStr (errtext (strerror w) e)] ;;
       exit EXIT_FAILURE
   else
     fprintf stdout ("Successfully connected to host: %s on port: %d" ++ LF)
       [AStr (arg 1%nat); AInt port] ;;
     close socket_handle ;;
     exit EXIT_SUCCESS) ;;
  '(r, read_fdset, write_fdset) <-
    select (socket_handle + 1) read_fdset write_fdset time_struct ;;
  (if r =? ZERO then
     e <- get_errno ;;
     fprintf stderr
       ("ERROR: Unable to connect, timed out, to host: %s on port: %d, timeout: %d, errno=%d (%s)" ++ LF)
       [AStr (arg 1%nat); AInt port; AInt timeout; AInt e; AStr (errtext (strerror w) e)] ;;
     close socket_handle ;;
     exit EXIT_FAILURE
   else pure tt) ;;
  (if FD_ISSET socket_handle read_fdset || FD_ISSET socket_handle write_fdset then
     '(r, socket_error) <- getsockopt socket_handle SOL_SOCKET SO_ERROR ZERO ;;
     if (r =? ERROR) || negb (socket_error =? ZERO) then
       e <- get_errno ;;
       fprintf stderr
         ("ERROR: Unable to connect to host: %s on port: %d, timeout: %d, errno=%d (%s)" ++ LF)
         [AStr (arg 1%nat); AInt port; AInt timeout; AInt e; AStr (errtext (strerror w) e)] ;;
       close socket_handle ;;
       exit EXIT_FAILURE
     else
       fprintf stdout ("Successfully connected to host: %s on port: %d" ++ LF)
         [AStr (arg 1%nat); AInt port] ;;
       close socket_handle ;;
       exit EXIT_SUCCESS
   else
     e <- get_errno ;;
     fprintf stderr
       ("ERROR: Unable to check status of socket to host: %s on port: %d, timeout: %d, errno=%d (%s)" ++ LF)
       [AStr (arg 1%nat); AInt port; AInt timeout; AInt e; AStr (errtext (strerror w) e)] ;;
     close socket_handle ;;
     exit EXIT_FAILURE : M unit) ;;
  close socket_handle ;;
  pure EXIT_SUCCESS.

(** The process starts with both error globals clear and nothing logged. *)
Definition start : Proc := {| errno := 0; h_errno := 0; out := [] |}.

(** A complete run: the exit status, whether [main] returned it or
    passed it to [exit], and the events in the order they happened. *)
Definition run (argv : list string) : Z * list Event :=
  match main argv start with
  | (Next status, p) => (status, rev (out p))
  | (Halt status, p) => (status, rev (out p))
  end.

End Program.

(** ** Reading a run *)

Definition status (w : World) (argv : list string) : Z := fst (run w argv).
Definition trace (w : World) (argv : list string) : list Event := snd (run w argv).

(** The arguments as [main] reads them. *)
Definition host_arg (argv : list string) : string := nth 1 argv "(null)".
Definition port_arg (argv : list string) : string := nth 2 argv "(null)".
Definition name_arg (argv : list string) : string := nth 0 argv "(null)".
Definition timeout_arg (argv : list string) : string := nth 3 argv "(null)".

(** Number of arguments after the program name. *)
Definition arity (argv : list string) : Z := Z.of_nat (List.length argv) - 1.

(** The budget of a probe: the third argument when it is present and
    [atoi] gives a non-zero value for it, the default otherwise. *)
Definition budget_of (argv : list string) : Z :=
  match nth_error argv 3 with
  | Some t => if atoi t =? 0 then DEFAULT_TIMEOUT else atoi t
  | None => DEFAULT_TIMEOUT
  end.

Definition is_write (e : Event) : bool :=
  match e with Write _ _ => true | _ => false end.

Definition is_stderr (e : Event) : bool :=
  match e with Write stderr _ => true | _ => false end.

Definition is_connect (e : Event) : bool :=
  match e with Connect _ _ _ => true | _ => false end.

Definition is_select (e : Event) : bool :=
  match e with Select _ _ _ _ _ => true | _ => false end.

Definition is_getsockopt (e : Event) : bool :=
  match e with Getsockopt _ _ _ _ => true | _ => false end.

Definition is_close (fd : Z) (e : Event) : bool :=
  match e with Close fd' => fd' =? fd | _ => false end.

Definition calls (kind : Event -> bool) (tr : list Event) : nat :=
  List.length (filter kind tr).

(** No call left the process: the run only wrote to its output streams. *)
Definition no_network_activity (tr : list Event) : bool := forallb is_write tr.

(** What [print_usage] writes. *)
Definition usage (binary_name : string) : list Event :=
  rev (out (snd (print_usage binary_name start))).

(** The lines the program prints, by the place that prints them. *)
Definition line_invalid_port (port : string) : string :=
  sprintf ("ERROR: Invalid port: %s" ++ LF) [AStr port].

Definition line_invalid_timeout (timeout : string) : string :=
  sprintf ("ERROR: Invalid timeout: %s, using default timeout: %d" ++ LF)
    [AStr timeout; AInt DEFAULT_TIMEOUT].

Definition line_unresolved (host : string) (h : Z) (text : string) : string :=
  sprintf ("ERROR: Unable to resolve host: %s h_errno=%d (%s)" ++ LF)
    [AStr host; AInt h; AStr text].

Definition line_no_socket (e : Z) (text : string) : string :=
  sprintf ("ERROR: Unable to initialize socket, errno=%d (%s)" ++ LF) [AInt e; AStr text].

Definition line_no_flags (e : Z) (text : string) : string :=
  sprintf ("ERROR: Unable to retrieve current socket flags, errno=%d (%s)" ++ LF)
    [AInt e; AStr text].

Definition line_not_nonblocking (e : Z) (text : string) : string :=
  sprintf ("ERROR: Unable to setup non_blocking socket. errno=%d (%s)" ++ LF)
    [AInt e; AStr text].

Definition line_connected (host : string) (port : Z) : string :=
  sprintf ("Successfully connected to host: %s on port: %d" ++ LF) [AStr host; AInt port].

Definition line_refused (host : string) (port timeout e : Z) (text : string) : string :=
  sprintf ("ERROR: Unable to connect to host: %s on port: %d, timeout: %d, errno=%d (%s)" ++ LF)
    [AStr host; AInt port; AInt timeout; AInt e; AStr text].

Definition line_timed_out (host : string) (port timeout e : Z) (text : string) : string :=
  sprintf ("ERROR: Unable to connect, timed out, to host: %s on port: %d, timeout: %d, errno=%d (%s)" ++ LF)
    [AStr host; AInt port; AInt timeout; AInt e; AStr text].

Definition line_no_status (host : string) (port timeout e : Z) (text : string) : string :=
  sprintf ("ERROR: Unable to check status of socket to host: %s on port: %d, timeout: %d, errno=%d (%s)" ++ LF)
    [AStr host; AInt port; AInt timeout; AInt e; AStr text].

(** The pending error a [getsockopt] answer leaves in the program's
    [socket_error], which starts as zero. *)
Definition pending_error (r : sockopt_ret) : Z := written (opt_val r) 0.

(** The probe resolved to Connected: the connection request succeeded at
    once, or the wait signalled readiness (it returned a positive count
    and marked the handle in one of the two sets) and the pending-error
    query succeeded and reported zero. *)
Definition Connected (tr : list Event) : Prop :=
  (exists fd addr r, In (Connect fd addr r) tr /\ 0 <= rv r)
  \/ (exists fd nfds rd wr tv sr gr,
        In (Select nfds rd wr tv sr) tr
        /\ 0 < sel_rv sr
        /\ FD_ISSET fd (sel_read sr) || FD_ISSET fd (sel_write sr) = true
        /\ In (Getsockopt fd SOL_SOCKET SO_ERROR gr) tr
        /\ opt_rv gr <> -1 /\ pending_error gr = 0).

(** ** The paths through [main]

    The probe as a state machine: argument checks, resolution, Init
    (socket), Configure (the two [fcntl] calls), Connecting, Waiting and
    Resolving.  [Path w argv status tr] lists, for each way [main] can
    end, the conditions on the arguments and on the answers of the
    environment, the exit status and the events of the run. *)

Section Paths.

Variable w : World.
Variable argv : list string.

(** The warning printed for a timeout argument that converts to zero. *)
Definition warning : list Event :=
  if (arity argv =? 3) && (atoi (timeout_arg argv) =? 0)
  then [Write stderr (line_invalid_timeout (timeout_arg argv))]
  else [].

(** The calls [main] makes and the answers it gets. *)
Definition sock : sysret := os_socket w AF_INET SOCK_STREAM 0.
Definition handle : Z := rv sock.
Definition getfl : sysret := os_fcntl w handle F_GETFL 0.
Definition setfl : sysret := os_fcntl w handle F_SETFL (Z.lor (rv getfl) O_NONBLOCK).
Definition address (a : Z) : sockaddr_in :=
  {| sin_family := AF_INET;
     sin_port := htons (host_big_endian w) (to_uint16 (atoi (port_arg argv)));
     sin_addr := a |}.
Definition conn (a : Z) : sysret := os_connect w handle (address a).
Definition armed : timeval := {| tv_sec := budget_of argv; tv_usec := 0 |}.
Definition wait : select_ret :=
  os_select w (handle + 1) (FD_SET handle FD_ZERO) (FD_SET handle FD_ZERO) armed.
Definition query : sockopt_ret := os_getsockopt w handle SOL_SOCKET SO_ERROR.

(** The value of [errno] after each call. *)
Definition errno_sock : Z := written (rerrno sock) 0.
Definition errno_getfl : Z := written (rerrno getfl) errno_sock.
Definition errno_setfl : Z := written (rerrno setfl) errno_getfl.
Definition errno_conn (a : Z) : Z := written (rerrno (conn a)) errno_setfl.
(** [main] clears [errno] before it waits. *)
Definition errno_wait : Z := written (sel_errno wait) 0.
Definition errno_query : Z := written (opt_errno query) errno_wait.

(** The events up to and including each call. *)
Definition resolved (a : Z) : list Event :=
  warning ++ [Gethostbyname (host_arg argv) (Resolved a)].
Definition opened (a : Z) : list Event :=
  resolved a ++ [Socket AF_INET SOCK_STREAM 0 sock].
Definition flags_read (a : Z) : list Event :=
  opened a ++ [Fcntl handle F_GETFL 0 getfl].
Definition configured (a : Z) : list Event :=
  flags_read a ++ [Fcntl handle F_SETFL (Z.lor (rv getfl) O_NONBLOCK) setfl].
Definition requested (a : Z) : list Event :=
  configured a ++ [Connect handle (address a) (conn a)].
Definition waited (a : Z) : list Event :=
  requested a
  ++ [Select (handle + 1) (FD_SET handle FD_ZERO) (FD_SET handle FD_ZERO) armed wait].
Definition queried (a : Z) : list Event :=
  waited a ++ [Getsockopt handle SOL_SOCKET SO_ERROR query].

(** The conditions under which [main] gets as far as each state. *)
Definition accepted : Prop := 2 <= arity argv <= 3 /\ atoi (port_arg argv) <> 0.

Definition resolves (a : Z) : Prop :=
  accepted /\ os_gethostbyname w (host_arg argv) = Resolved a.

Definition set_up (a : Z) : Prop :=
  resolves a /\ handle <> -1 /\ rv getfl <> -1 /\ rv setfl <> -1.

Definition in_progress (a : Z) : Prop :=
  set_up a /\ rv (conn a) < 0 /\ errno_conn a = EINPROGRESS.

Definition ready : bool :=
  FD_ISSET handle (sel_read wait) || FD_ISSET handle (sel_write wait).

Definition resolving (a : Z) : Prop :=
  in_progress a /\ sel_rv wait <> 0 /\ ready = true.

Inductive Path : Z -> list Event -> Prop :=
| path_usage :
    ~ 2 <= arity argv <= 3 ->
    Path EXIT_FAILURE (usage (name_arg argv))
| path_invalid_port :
    2 <= arity argv <= 3 -> atoi (port_arg argv) = 0 ->
    Path EXIT_FAILURE
      (Write stderr (line_invalid_port (port_arg argv)) :: usage (name_arg argv))
| path_unresolved (h : Z) :
    accepted -> os_gethostbyname w (host_arg argv) = Unresolved h ->
    Path EXIT_FAILURE
      (warning
       ++ [Gethostbyname (host_arg argv) (Unresolved h);
           Write stderr (line_unresolved (host_arg argv) h (errtext (hstrerror w) h))])
| path_no_socket (a : Z) :
    resolves a -> handle = -1 ->
    Path EXIT_FAILURE
      (opened a
       ++ [Write stderr (line_no_socket errno_sock (errtext (strerror w) errno_sock))])
| path_no_flags (a : Z) :
    resolves a -> handle <> -1 -> rv getfl = -1 ->
    Path EXIT_FAILURE
      (flags_read a
       ++ [Write stderr (line_no_flags errno_getfl (errtext (strerror w) errno_getfl))])
| path_not_nonblocking (a : Z) :
    resolves a -> handle <> -1 -> rv getfl <> -1 -> rv setfl = -1 ->
    Path EXIT_FAILURE
      (configured a
       ++ [Write stderr
             (line_not_nonblocking errno_setfl (errtext (strerror w) errno_setfl))])
| path_connect_failed (a : Z) :
    set_up a -> rv (conn a) < 0 -> errno_conn a <> EINPROGRESS ->
    Path EXIT_FAILURE
      (requested a
       ++ [Write stderr
             (line_refused (host_arg argv) (atoi (port_arg argv)) (budget_of argv)
                (errno_conn a) (errtext (strerror w) (errno_conn a)))])
| path_fast (a : Z) :
    set_up a -> 0 <= rv (conn a) ->
    Path EXIT_SUCCESS
      (requested a
       ++ [Write stdout (line_connected (host_arg argv) (atoi (port_arg argv)));
           Close handle])
| path_timed_out (a : Z) :
    in_progress a -> sel_rv wait = 0 ->
    Path EXIT_FAILURE
      (waited a
       ++ [Write stderr
             (line_timed_out (host_arg argv) (atoi (port_arg argv)) (budget_of argv)
                errno_wait (errtext (strerror w) errno_wait));
           Close handle])
| path_no_status (a : Z) :
    in_progress a -> sel_rv wait <> 0 -> ready = false ->
    Path EXIT_FAILURE
      (waited a
       ++ [Write stderr
             (line_no_status (host_arg argv) (atoi (port_arg argv)) (budget_of argv)
                errno_wait (errtext (strerror w) errno_wait));
           Close handle])
| path_refused (a : Z) :
    resolving a -> opt_rv query = -1 \/ pending_error query <> 0 ->
    Path EXIT_FAILURE
      (queried a
       ++ [Write stderr
             (line_refused (host_arg argv) (atoi (port_arg argv)) (budget_of argv)
                errno_query (errtext (strerror w) errno_query));
           Close handle])
| path_connected (a : Z) :
    resolving a -> opt_rv query <> -1 -> pending_error query = 0 ->
    Path EXIT_SUCCESS
      (queried a
       ++ [Write stdout (line_connected (host_arg argv) (atoi (port_arg argv)));
           Close handle]).

End Paths.

(** ** Sample environments *)

Definition done (v : Z) : sysret := {| rv := v; rerrno := None |}.
Definition failed (e : Z) : sysret := {| rv := -1; rerrno := Some e |}.

Definition ECONNREFUSED : Z := 111.
Definition ENETUNREACH : Z := 101.
Definition EINTR : Z := 4.
Definition EINVAL : Z := 22.

(** 127.0.0.1, and the address the program builds for a port stored in
    network byte order. *)
Definition loopback : Z := 2130706433.
Definition inet (port_be : Z) : sockaddr_in :=
  {| sin_family := AF_INET; sin_port := port_be; sin_addr := loopback |}.

(** Answers of [select]: the handle became writable; nothing happened
    within the time allowed; the call was interrupted; the time limit
    was refused.  A call that fails leaves the sets as they were passed. *)
Definition writable (rd wr : fd_set) : select_ret :=
  {| sel_rv := 1; sel_errno := None; sel_read := []; sel_write := wr |}.

Definition expired (rd wr : fd_set) : select_ret :=
  {| sel_rv := 0; sel_errno := None; sel_read := []; sel_write := [] |}.

Definition interrupted (rd wr : fd_set) : select_ret :=
  {| sel_rv := -1; sel_errno := Some EINTR; sel_read := rd; sel_write := wr |}.

Definition invalid (rd wr : fd_set) : select_ret :=
  {| sel_rv := -1; sel_errno := Some EINVAL; sel_read := rd; sel_write := wr |}.

(** A little-endian Linux host that resolves [localhost] only, hands out
    descriptor 3, refuses a negative time limit in [select], and
    otherwise answers [connect], [select] and [getsockopt] as given. *)
Definition host (conn : sysret) (sel : fd_set -> fd_set -> select_ret)
  (so : sockopt_ret) : World :=
  {| host_big_endian := false;
     strerror := fun e =>
       if e =? ECONNREFUSED then "Connection refused"
       else if e =? ENETUNREACH then "Network is unreachable"
       else if e =? EINTR then "Interrupted system call"
       else if e =? EINVAL then "Invalid argument"
       else "Unknown error";
     hstrerror := fun _ => "Unknown host";
     os_gethostbyname := fun name =>
       if String.eqb name "localhost" then Resolved loopback else Unresolved 1;
     os_socket := fun _ _ _ => done 3;
     os_fcntl := fun _ cmd _ => if cmd =? F_GETFL then done 2 else done 0;
     os_connect := fun _ _ => conn;
     os_select := fun _ rd wr tv => if tv_sec tv <? 0 then invalid rd wr else sel rd wr;
     os_getsockopt := fun _ _ _ => so |}.

(** Answers of [getsockopt(SO_ERROR)]: the call succeeds and stores [e]. *)
Definition so_error (e : Z) : sockopt_ret :=
  {| opt_rv := 0; opt_errno := None; opt_val := Some e |}.

(** The connection is established at once. *)
Definition w_loopback : World := host (done 0) writable (so_error 0).
(** The connection is established during the wait. *)
Definition w_listening : World := host (failed EINPROGRESS) writable (so_error 0).
(** The remote end rejects the connection during the wait. *)
Definition w_rejecting : World := host (failed EINPROGRESS) writable (so_error ECONNREFUSED).
(** The connection request fails at once. *)
Definition w_unreachable : World := host (failed ENETUNREACH) writable (so_error 0).
(** No answer arrives within the budget. *)
Definition w_filtered : World := host (failed EINPROGRESS) expired (so_error 0).
(** The wait fails while the connection is still in progress. *)
Definition w_interrupted : World := host (failed EINPROGRESS) interrupted (so_error 0).

(** The part of a run that starts at the first event of a given kind. *)
Fixpoint from (kind : Event -> bool) (tr : list Event) : list Event :=
  match tr with
  | [] => []
  | e :: tr' => if kind e then tr else from kind tr'
  end.

(** A numeral: one or more decimal digits and nothing else. *)
Fixpoint all_digits (s : string) : bool :=
  match s with
  | EmptyString => true
  | String c r => isdigit c && all_digits r
  end.

Definition numeric (s : string) : bool :=
  match s with
  | EmptyString => false
  | String _ _ => all_digits s
  end.

(** Ordinary invocations used as concrete inputs. *)
Definition probe_http : list string := ["tcp_connect"; "localhost"; "80"].
Definition probe_ssh_5s : list string := ["tcp_connect"; "localhost"; "22"; "5"].

(** ** The calls of a run, by kind *)

Definition is_stdout (e : Event) : bool :=
  match e with Write stdout _ => true | _ => false end.

Definition is_resolve (e : Event) : bool :=
  match e with Gethostbyname _ _ => true | _ => false end.

Definition is_socket (e : Event) : bool :=
  match e with Socket _ _ _ _ => true | _ => false end.

Definition is_fcntl (e : Event) : bool :=
  match e with Fcntl _ _ _ _ => true | _ => false end.


(** The calls that leave the process, without their arguments. *)
Inductive Call : Type :=
| CResolve | CSocket | CGetfl | CSetfl | CConnect | CSelect | CQuery | CClose | COther.

Definition call_of (e : Event) : option Call :=
  match e with
  | Write _ _ => None
  | Gethostbyname _ _ => Some CResolve
  | Socket _ _ _ _ => Some CSocket
  | Fcntl _ cmd _ _ =>
      Some (if cmd =? F_GETFL then CGetfl else if cmd =? F_SETFL then CSetfl else COther)
  | Connect _ _ _ => Some CConnect
  | Select _ _ _ _ _ => Some CSelect
  | Getsockopt _ level optname _ =>
      Some (if (level =? SOL_SOCKET) && (optname =? SO_ERROR) then CQuery else COther)
  | Close _ => Some CClose
  end.

Fixpoint sequence (tr : list Event) : list Call :=
  match tr with
  | [] => []
  | e :: tr' =>
      match call_of e with
      | Some c => c :: sequence tr'
      | None => sequence tr'
      end
  end.

(** The order in which [main] makes its calls, up to the release of the
    handle. *)
Definition protocol : list Call :=
  [CResolve; CSocket; CGetfl; CSetfl; CConnect; CSelect; CQuery].

(** ** More sample environments *)

Definition EMFILE : Z := 24.
Definition EBADF : Z := 9.

(** The environment [w] with another answer of [socket], of [fcntl] for
    one command, or of [select]. *)
Definition with_socket (r : sysret) (w : World) : World :=
  {| host_big_endian := host_big_endian w;
     strerror := strerror w;
     hstrerror := hstrerror w;
     os_gethostbyname := os_gethostbyname w;
     os_socket := fun _ _ _ => r;
     os_fcntl := os_fcntl w;
     os_connect := os_connect w;
     os_select := os_select w;
     os_getsockopt := os_getsockopt w |}.

Definition with_fcntl (command : Z) (r : sysret) (w : World) : World :=
  {| host_big_endian := host_big_endian w;
     strerror := strerror w;
     hstrerror := hstrerror w;
     os_gethostbyname := os_gethostbyname w;
     os_socket := os_socket w;
     os_fcntl := fun fd cmd arg => if cmd =? command then r else os_fcntl w fd cmd arg;
     os_connect := os_connect w;
     os_select := os_select w;
     os_getsockopt := os_getsockopt w |}.


(** No descriptor is left for a socket. *)
Definition w_exhausted : World := with_socket (failed EMFILE) w_loopback.
(** The flags of the handle cannot be read. *)
Definition w_no_flags : World := with_fcntl F_GETFL (failed EBADF) w_loopback.
(** The flags of the handle cannot be changed. *)
Definition w_fixed_flags : World := with_fcntl F_SETFL (failed EINVAL) w_loopback.

(** An invocation whose host does not resolve. *)
Definition probe_nowhere : list string := ["tcp_connect"; "nowhere"; "80"].

(** * Properties *)

(** ** The library functions on concrete inputs *)

Example atoi_plain : atoi "8080" = 8080.
Proof. reflexivity. Qed.

Example atoi_prefix : atoi "  +22abc" = 22.
Proof. reflexivity. Qed.

Example atoi_letters : atoi "http" = 0.
Proof. reflexivity. Qed.

Example atoi_negative : atoi "-5" = -5.
Proof. reflexivity. Qed.

Example atoi_wraps : atoi "4294967296" = 0.
Proof. reflexivity. Qed.

Example sprintf_port :
  sprintf ("port: %d, host: %s" ++ LF)%string [AInt (-7); AStr "h"]
  = ("port: -7, host: h" ++ LF)%string.
Proof. reflexivity. Qed.

Example htons_80 : htons false (to_uint16 80) = 20480.
Proof. reflexivity. Qed.

(** ** Byte order *)

Lemma land_shifted_low (a b : Z) : 0 <= b < 2 ^ 8 -> Z.land (Z.shiftl a 8) b = 0.
Proof.
  intros Hb. apply Z.bits_inj'; intros n Hn.
  rewrite Z.land_spec, Z.bits_0.
  destruct (Z.lt_ge_cases n 8) as [Hlt | Hge].
  - rewrite Z.shiftl_spec_low by exact Hlt. reflexivity.
  - destruct (Z.eq_dec b 0) as [-> | Hnz].
    + rewrite Z.bits_0. apply andb_false_r.
    + rewrite (Z.bits_above_log2 b n), andb_false_r; [reflexivity | lia | ].
      apply Z.lt_le_trans with 8; [ | exact Hge].
      apply Z.log2_lt_pow2; lia.
Qed.

Lemma bswap16_split (x : Z) :
  0 <= x < 2 ^ 16 -> bswap16 x = (x mod 2 ^ 8) * 2 ^ 8 + x / 2 ^ 8.
Proof.
  intros Hx. unfold bswap16.
  change 255 with (Z.ones 8).
  rewrite !Z.land_ones by (cbv; discriminate).
  rewrite Z.shiftr_div_pow2 by (cbv; discriminate).
  assert (Hq : 0 <= x / 2 ^ 8 < 2 ^ 8).
  { split; [apply Z.div_pos; lia | apply Z.div_lt_upper_bound; lia]. }
  rewrite (Z.mod_small (x / 2 ^ 8)) by exact Hq.
  rewrite <- Z.lxor_lor, <- Z.add_nocarry_lxor by (apply land_shifted_low; exact Hq).
  rewrite Z.shiftl_mul_pow2 by (cbv; discriminate).
  reflexivity.
Qed.

Lemma bswap16_range (x : Z) : 0 <= x < 2 ^ 16 -> 0 <= bswap16 x < 2 ^ 16.
Proof.
  intros Hx. rewrite bswap16_split by exact Hx.
  assert (0 <= x mod 2 ^ 8 < 2 ^ 8) by (apply Z.mod_pos_bound; lia).
  assert (0 <= x / 2 ^ 8 < 2 ^ 8).
  { split; [apply Z.div_pos; lia | apply Z.div_lt_upper_bound; lia]. }
  lia.
Qed.

Lemma bswap16_involutive (x : Z) : 0 <= x < 2 ^ 16 -> bswap16 (bswap16 x) = x.
Proof.
  intros Hx.
  rewrite (bswap16_split (bswap16 x)) by (apply bswap16_range; exact Hx).
  rewrite bswap16_split by exact Hx.
  assert (0 <= x mod 2 ^ 8 < 2 ^ 8) by (apply Z.mod_pos_bound; lia).
  assert (0 <= x / 2 ^ 8 < 2 ^ 8).
  { split; [apply Z.div_pos; lia | apply Z.div_lt_upper_bound; lia]. }
  replace ((x mod 2 ^ 8 * 2 ^ 8 + x / 2 ^ 8) mod 2 ^ 8) with (x / 2 ^ 8).
  2:{ rewrite Z.add_comm, Z.mod_add by lia. symmetry; apply Z.mod_small; lia. }
  replace ((x mod 2 ^ 8 * 2 ^ 8 + x / 2 ^ 8) / 2 ^ 8) with (x mod 2 ^ 8).
  2:{ rewrite Z.add_comm, Z.div_add by lia. rewrite Z.div_small by lia. lia. }
  pose proof (Z.div_mod x (2 ^ 8)). lia.
Qed.

Lemma to_uint16_range (x : Z) : 0 <= to_uint16 x < 2 ^ 16.
Proof. unfold to_uint16. apply Z.mod_pos_bound. lia. Qed.

(** The port number read back from the address is the truncated one,
    whatever the byte order of the host. *)
Lemma ntohs_htons (b : bool) (x : Z) : ntohs b (htons b (to_uint16 x)) = x mod 2 ^ 16.
Proof.
  unfold ntohs, htons. destruct b; [reflexivity | ].
  apply bswap16_involutive, to_uint16_range.
Qed.

(** ** What [atoi] rejects *)

Lemma atoi_empty : atoi "" = 0.
Proof. reflexivity. Qed.

(** A string whose first character is neither white space, a sign nor a
    digit converts to zero. *)
Lemma atoi_no_numeral (c : ascii) (r : string) :
  isspace c = false -> isdigit c = false ->
  Ascii.eqb c "-" = false -> Ascii.eqb c "+" = false ->
  atoi (String c r) = 0.
Proof.
  intros Hs Hd Hm Hp. unfold atoi, strtol.
  cbn [skip_spaces]. rewrite Hs, Hm, Hp.
  cbn [digits]. rewrite Hd. reflexivity.
Qed.

(** ** The diagnostics are told apart by their text *)

Lemma timed_out_is_not_refused h p t e d h' p' t' e' d' :
  line_timed_out h p t e d <> line_refused h' p' t' e' d'.
Proof.
  unfold line_timed_out, line_refused.
  cbn [sprintf String.append LF Ascii.eqb Bool.eqb].
  discriminate.
Qed.

Lemma timed_out_is_not_no_status h p t e d h' p' t' e' d' :
  line_timed_out h p t e d <> line_no_status h' p' t' e' d'.
Proof.
  unfold line_timed_out, line_no_status.
  cbn [sprintf String.append LF Ascii.eqb Bool.eqb].
  discriminate.
Qed.

(** ** The usage text *)

Lemma usage_on_stderr (name : string) : forallb is_stderr (usage name) = true.
Proof. reflexivity. Qed.

Lemma usage_synopsis (name : string) :
  In (Write stderr (sprintf ("Usage: %s [host] [port] (timeout)" ++ LF) [AStr name]))
     (usage name).
Proof. cbv [usage]. cbn. tauto. Qed.

(** ** The budget *)

Lemma budget_default (argv : list string) :
  Z.of_nat (List.length argv) <= 3 -> budget_of argv = DEFAULT_TIMEOUT.
Proof.
  intros H. unfold budget_of.
  destruct (nth_error argv 3) eqn:E; [ | reflexivity].
  assert (3 < List.length argv)%nat by (apply nth_error_Some; congruence). lia.
Qed.

Lemma budget_supplied (argv : list string) :
  Z.of_nat (List.length argv) = 4 ->
  budget_of argv =
    if atoi (timeout_arg argv) =? 0 then DEFAULT_TIMEOUT else atoi (timeout_arg argv).
Proof.
  intros H. unfold budget_of, timeout_arg.
  rewrite (nth_error_nth' argv "(null)") by lia. reflexivity.
Qed.

Lemma budget_nonzero (argv : list string) : budget_of argv <> 0.
Proof.
  unfold budget_of, DEFAULT_TIMEOUT.
  destruct (nth_error argv 3); [ | discriminate].
  destruct (atoi s =? 0) eqn:E; [discriminate | apply Z.eqb_neq; exact E].
Qed.

(** From here on a printed line and a converted argument are compared as
    they are written, not computed. *)
#[local] Opaque sprintf atoi.

(** ** Every run follows one of the paths *)

Lemma warning_shown (argv : list string) :
  Z.of_nat (List.length argv) = 4 -> atoi (nth 3 argv "(null)") = 0 ->
  warning argv = [Write stderr (line_invalid_timeout (nth 3 argv "(null)"))].
Proof.
  intros Hn Hz. unfold warning, arity, timeout_arg.
  replace (Z.of_nat (List.length argv) - 1 =? 3) with true by (symmetry; apply Z.eqb_eq; lia).
  rewrite Hz. reflexivity.
Qed.

Lemma warning_none (argv : list string) :
  Z.of_nat (List.length argv) <> 4 \/ atoi (nth 3 argv "(null)") <> 0 ->
  warning argv = [].
Proof.
  intros H. unfold warning, arity, timeout_arg.
  destruct (Z.of_nat (List.length argv) - 1 =? 3) eqn:E1; [ | reflexivity].
  destruct (atoi (nth 3 argv "(null)") =? 0) eqn:E2; [ | reflexivity].
  apply Z.eqb_eq in E1, E2. lia.
Qed.

Lemma budget_given (argv : list string) :
  Z.of_nat (List.length argv) = 4 -> atoi (nth 3 argv "(null)") <> 0 ->
  budget_of argv = atoi (nth 3 argv "(null)").
Proof.
  intros Hn Hz. rewrite budget_supplied by exact Hn. unfold timeout_arg.
  apply Z.eqb_neq in Hz. rewrite Hz. reflexivity.
Qed.

Lemma budget_fallback (argv : list string) :
  Z.of_nat (List.length argv) = 4 -> atoi (nth 3 argv "(null)") = 0 ->
  budget_of argv = DEFAULT_TIMEOUT.
Proof.
  intros Hn Hz. rewrite budget_supplied by exact Hn. unfold timeout_arg.
  rewrite Hz. reflexivity.
Qed.

Lemma path_eq w argv st tr tr' : Path w argv st tr -> tr = tr' -> Path w argv st tr'.
Proof. intros P <-. exact P. Qed.

(** Unfolds the program and the monad, leaving the calls of the library
    and the answers of the environment as they are. *)
Ltac expose :=
  cbv beta iota zeta delta
    [status trace run main bind pure exit fprintf print_usage gethostbyname
     socket fcntl connect select getsockopt close log get_errno get_h_errno
     set_errno set_h_errno assign_errno start errno h_errno out fst snd rev app].

Ltac branch :=
  match goal with
  | |- context [if ?c then _ else _] => destruct c eqn:?
  | |- context [match ?x with Resolved _ => _ | Unresolved _ => _ end] =>
      destruct x eqn:?
  end.

(** One goal per way through the conditionals of [main], with the
    conditions taken as hypotheses. *)
Ltac run_cases := expose; repeat (branch; expose).

(** Boolean tests as arithmetic facts. *)
Ltac bools :=
  repeat match goal with
  | H : (_ || _) = true |- _ => apply orb_true_iff in H; destruct H
  | H : (_ || _) = false |- _ => apply orb_false_iff in H; destruct H
  | H : negb _ = true |- _ => apply negb_true_iff in H
  | H : negb _ = false |- _ => apply negb_false_iff in H
  | H : (_ =? _) = true |- _ => apply Z.eqb_eq in H
  | H : (_ =? _) = false |- _ => apply Z.eqb_neq in H
  | H : (_ <? _) = true |- _ => apply Z.ltb_lt in H
  | H : (_ <? _) = false |- _ => apply Z.ltb_ge in H
  | H : (_ >? _) = true |- _ => rewrite Z.gtb_ltb in H
  | H : (_ >? _) = false |- _ => rewrite Z.gtb_ltb in H
  end.

Ltac consts :=
  unfold ZERO, ERROR, EXIT_SUCCESS, EXIT_FAILURE, EINPROGRESS, DEFAULT_TIMEOUT in *.

Ltac names :=
  unfold line_connected, line_refused, line_timed_out, line_no_status,
    line_invalid_port, line_invalid_timeout, line_unresolved, line_no_socket,
    line_no_flags, line_not_nonblocking, host_arg, port_arg, name_arg,
    timeout_arg, arity, pending_error in *.

Ltac calls_made :=
  unfold resolving, in_progress, set_up, resolves, accepted, ready, queried, waited,
    requested, configured, flags_read, opened, resolved, errno_query, errno_wait,
    errno_conn, errno_setfl, errno_getfl, errno_sock, query, wait, armed, conn,
    address, setfl, getfl, handle, sock in *.

(** The budget and the warning on the path at hand. *)
Ltac timeout_case :=
  match goal with
  | Hn : Z.of_nat (List.length ?argv) = 4, Hz : atoi (nth 3 ?argv _) = 0 |- _ =>
      rewrite ?(budget_fallback argv Hn Hz), ?(warning_shown argv Hn Hz)
  | Hn : Z.of_nat (List.length ?argv) = 4, Hz : atoi (nth 3 ?argv _) <> 0 |- _ =>
      rewrite ?(budget_given argv Hn Hz), ?(warning_none argv (or_intror Hz))
  | Hn : Z.of_nat (List.length ?argv) <> 4 |- _ =>
      rewrite ?(budget_default argv), ?(warning_none argv (or_introl Hn)) by lia
  end.

Ltac follows c :=
  solve
    [ eapply path_eq;
      [ eapply c; calls_made; names; consts; try timeout_case; consts;
        repeat split;
        first
          [ eassumption | lia
          | apply orb_true_iff; first [left; eassumption | right; eassumption]
          | apply orb_false_iff; split; eassumption ]
      | calls_made; names; consts; try timeout_case; consts; reflexivity ] ].

Ltac path :=
  first
    [ follows path_usage | follows path_invalid_port | follows path_unresolved
    | follows path_no_socket | follows path_no_flags | follows path_not_nonblocking
    | follows path_connect_failed | follows path_fast | follows path_timed_out
    | follows path_no_status | follows path_refused | follows path_connected ].

Theorem run_path (w : World) (argv : list string) :
  Path w argv (status w argv) (trace w argv).
Proof.
  run_cases; bools; path.
Qed.

(** ** Reading a run through its path *)

Lemma warning_cases (argv : list string) :
  (warning argv = [] /\ ~ (arity argv = 3 /\ atoi (timeout_arg argv) = 0))
  \/ (warning argv = [Write stderr (line_invalid_timeout (timeout_arg argv))]
      /\ arity argv = 3 /\ atoi (timeout_arg argv) = 0).
Proof.
  unfold warning.
  destruct (arity argv =? 3) eqn:E1; destruct (atoi (timeout_arg argv) =? 0) eqn:E2;
    cbn [andb]; bools; [right | left | left | left]; repeat split; try assumption; lia.
Qed.

Lemma budget_zero (argv : list string) :
  atoi (timeout_arg argv) = 0 -> budget_of argv = DEFAULT_TIMEOUT.
Proof.
  intros Hz. unfold budget_of. destruct (nth_error argv 3) eqn:E; [ | reflexivity].
  apply (nth_error_nth argv 3 "(null)") in E. fold (timeout_arg argv) in E.
  subst s. rewrite Hz. reflexivity.
Qed.

Lemma budget_absent (argv : list string) :
  arity argv <= 2 -> budget_of argv = DEFAULT_TIMEOUT.
Proof. unfold arity. intros H. apply budget_default. lia. Qed.

Lemma budget_used (argv : list string) :
  3 <= arity argv -> atoi (timeout_arg argv) <> 0 ->
  budget_of argv = atoi (timeout_arg argv).
Proof.
  unfold arity. intros Hn Hz. unfold budget_of.
  rewrite (nth_error_nth' argv "(null)") by lia. fold (timeout_arg argv).
  apply Z.eqb_neq in Hz. rewrite Hz. reflexivity.
Qed.

Lemma usage_writes (name : string) (e : Event) :
  In e (usage name) -> exists text, Write stderr text = e.
Proof.
  cbv [usage print_usage bind fprintf log start out snd rev app errno h_errno].
  cbn [In]. intros H.
  repeat (destruct H as [H | H]; [eexists; exact H | ]). contradiction.
Qed.

(** Which entry of a listed run a membership hypothesis speaks of. *)
Ltac pick H :=
  cbn [In] in H;
  repeat match type of H with
  | _ \/ _ => destruct H as [H | H]
  | False => contradiction
  | In _ (usage _) => apply usage_writes in H; destruct H as [? H]
  end;
  try discriminate H; injection H as; intros; subst.

(** Membership in a listed run. *)
Ltac find_event :=
  cbn [In];
  repeat match goal with
  | |- ?a = ?b \/ _ => first [ constr_eq a b; left; reflexivity | right ]
  end.

(** Replaces the run at hand by the cases of [Path]. *)
Ltac paths w argv :=
  generalize (run_path w argv);
  generalize (status w argv), (trace w argv);
  let P := fresh "P" in intros ? ? P; destruct P.

(** The events of the path as a list, once with and once without the
    warning. *)
Ltac listed argv :=
  unfold queried, waited, requested, configured, flags_read, opened, resolved;
  let W := fresh "W" in
  destruct (warning_cases argv) as [[W ?] | [W ?]]; try rewrite W; cbn [app].

(** The conditions of the path as separate hypotheses. *)
Ltac conds :=
  unfold resolving, in_progress, set_up, resolves, accepted in *;
  repeat match goal with H : _ /\ _ |- _ => destruct H end.

(** ** The outcome of a probe *)

(** C7.  When the connection request returns without error, the probe
    ends at once as Connected: from the [connect] call on, the run
    consists of that call, the success line on standard output and the
    release of the handle; the exit status is success and [select] is
    never called, whatever the budget. *)
Theorem C7_fast_path_skips_wait :
  forall w argv fd addr r,
    In (Connect fd addr r) (trace w argv) -> 0 <= rv r ->
    status w argv = EXIT_SUCCESS
    /\ from is_connect (trace w argv) =
         [Connect fd addr r;
          Write stdout (line_connected (host_arg argv) (atoi (port_arg argv)));
          Close fd]
    /\ calls is_select (trace w argv) = 0%nat.
Proof.
  intros w argv fd addr r. paths w argv; listed argv.
  all: intros Hin Hr; pick Hin; conds; try lia.
  all: repeat split; reflexivity.
Qed.

Lemma C7_fast_path_witness :
  In (Connect 3 (inet 5632) (done 0)) (trace w_loopback probe_ssh_5s)
  /\ 0 <= rv (done 0)
  /\ status w_loopback probe_ssh_5s = EXIT_SUCCESS
  /\ calls is_select (trace w_loopback probe_ssh_5s) = 0%nat.
Proof.
  assert (Hin : In (Connect 3 (inet 5632) (done 0)) (trace w_loopback probe_ssh_5s))
    by (vm_compute; find_event).
  assert (Hr : 0 <= rv (done 0)) by (simpl; lia).
  destruct (C7_fast_path_skips_wait _ _ _ _ _ Hin Hr) as (Hs & _ & Hc).
  split; [exact Hin | split; [exact Hr | split; assumption]].
Defined.

(** C3.  When [select] returns zero the probe ends as TimedOut: the exit
    status is failure; the wait was armed with the budget in whole
    seconds and zero microseconds; from the wait on, the run consists of
    the [select] call, the timeout diagnostic on standard error and the
    release of the handle; [connect] and [select] were each called once
    (nothing is retried), the pending error is not queried, and the text
    of the diagnostic differs from every text the Refused outcome can
    print. *)
Theorem C3_wait_expired_is_timed_out :
  forall w argv nfds rd wr tv sr,
    In (Select nfds rd wr tv sr) (trace w argv) -> sel_rv sr = 0 ->
    let e := written (sel_errno sr) 0 in
    let line :=
      line_timed_out (host_arg argv) (atoi (port_arg argv)) (budget_of argv) e
        (errtext (strerror w) e) in
    status w argv = EXIT_FAILURE
    /\ tv = {| tv_sec := budget_of argv; tv_usec := 0 |}
    /\ from is_select (trace w argv) =
         [Select nfds rd wr tv sr; Write stderr line; Close (nfds - 1)]
    /\ calls is_connect (trace w argv) = 1%nat
    /\ calls is_select (trace w argv) = 1%nat
    /\ calls is_getsockopt (trace w argv) = 0%nat
    /\ (forall h p t e' d, line <> line_refused h p t e' d).
Proof.
  intros w argv nfds rd wr tv sr. cbv zeta. paths w argv; listed argv.
  all: intros Hin Hr; pick Hin; conds; try contradiction.
  all: rewrite Z.add_simpl_r.
  all: do 6 (split; [reflexivity | ]).
  all: intros; apply timed_out_is_not_refused.
Qed.

Lemma C3_wait_expired_witness :
  In (Select 4 [3] [3] {| tv_sec := 5; tv_usec := 0 |} (expired [3] [3]))
     (trace w_filtered probe_ssh_5s)
  /\ sel_rv (expired [3] [3]) = 0
  /\ status w_filtered probe_ssh_5s = EXIT_FAILURE
  /\ calls is_connect (trace w_filtered probe_ssh_5s) = 1%nat.
Proof.
  assert (Hin : In (Select 4 [3] [3] {| tv_sec := 5; tv_usec := 0 |} (expired [3] [3]))
                   (trace w_filtered probe_ssh_5s)) by (vm_compute; find_event).
  pose proof (C3_wait_expired_is_timed_out _ _ _ _ _ _ _ Hin eq_refl) as H.
  cbv zeta in H. destruct H as (Hs & _ & _ & Hc & _).
  split; [exact Hin | split; [reflexivity | split; assumption]].
Defined.

(** The exit status by outcome.  A probe that resolved to Connected
    exits with success, and every run exits with success or with
    failure; success is exactly the case in which the success line is
    written to standard output.  A run that exits with success resolved
    to Connected, unless the wait itself failed. *)
Lemma exit_status_by_outcome (w : World) (argv : list string) :
  (Connected (trace w argv) -> status w argv = EXIT_SUCCESS)
  /\ (status w argv = EXIT_SUCCESS ->
      Connected (trace w argv) \/ sel_rv (wait w argv) < 0)
  /\ (status w argv = EXIT_SUCCESS \/ status w argv = EXIT_FAILURE)
  /\ (status w argv = EXIT_SUCCESS <->
      In (Write stdout (line_connected (host_arg argv) (atoi (port_arg argv))))
         (trace w argv))
  /\ EXIT_SUCCESS = 0 /\ EXIT_FAILURE <> 0.
Proof.
  unfold Connected. paths w argv.
  (* the two successful paths *)
  8: { listed argv.
       all: split; [intros _; reflexivity | split; [intros _; left; left | ]].
       all: try (exists (handle w), (address w argv a), (conn w argv a);
                 split; [find_event | assumption]).
       all: split; [left; reflexivity | ].
       all: split; [split; [intros _; find_event | intros _; reflexivity] | ].
       all: split; [reflexivity | discriminate]. }
  11: { listed argv.
       all: split; [intros _; reflexivity | split; [intros _ | ]].
       all: try (destruct (Z_lt_le_dec 0 (sel_rv (wait w argv))) as [Hpos | Hneg];
                 [ left; right;
                   exists (handle w), (handle w + 1), (FD_SET (handle w) FD_ZERO),
                     (FD_SET (handle w) FD_ZERO), (armed argv), (wait w argv), (query w);
                   conds; repeat split; try find_event; assumption
                 | right; conds; lia ]).
       all: split; [left; reflexivity | ].
       all: split; [split; [intros _; find_event | intros _; reflexivity] | ].
       all: split; [reflexivity | discriminate]. }
  (* the failing paths *)
  all: listed argv.
  all: split; [ | split; [discriminate | ]].
  all: try (intros [(fd & addr & r & Hin & Hr)
                   | (fd & nfds & rd & wr & tv & sr & gr & Hsel & Hpos & Hready & Hq & Hrv & Hpe)];
            [pick Hin | pick Hq]; conds; lia).
  all: split; [right; reflexivity | ].
  all: split; [split; [discriminate | intros Hin; pick Hin] | ].
  all: split; [reflexivity | discriminate].
Qed.

(** C2 (the code departs from the specification).  The exit status is
    success although the probe did not resolve to Connected: with the
    timeout argument -5 the wait fails with EINVAL, and on a host where
    it is interrupted it fails with EINTR; in both runs [connect] was
    still in progress and [select] signalled no readiness, yet the
    handle is found in the sets as they were passed, the pending-error
    query reports zero and the program exits with success. *)
Example C2_success_without_readiness :
  status w_filtered ["tcp_connect"; "localhost"; "80"; "-5"] = EXIT_SUCCESS
  /\ ~ Connected (trace w_filtered ["tcp_connect"; "localhost"; "80"; "-5"])
  /\ status w_interrupted probe_http = EXIT_SUCCESS
  /\ ~ Connected (trace w_interrupted probe_http).
Proof.
  split; [vm_compute; reflexivity | split; [ | split; [vm_compute; reflexivity | ]]].
  all: intros [(fd & addr & r & Hin & Hr)
              | (fd & nfds & rd & wr & tv & sr & gr & Hsel & Hpos & _)].
  all: try (vm_compute in Hin; pick Hin; cbn in Hr; lia).
  all: vm_compute in Hsel; pick Hsel; cbn in Hpos; lia.
Qed.

(** ** The arguments *)

(** C9.  For every port argument that [atoi] converts to a non-zero
    integer [n], negative values and values above 65535 included, the
    probe goes on to resolve the host, and the port of every address
    passed to [connect] is [n] truncated to 16 bits: the field holds
    [htons (n mod 2^16)], which reads back as [n mod 2^16].  When
    resolution and the set-up of the handle succeed, [connect] is called
    with that address. *)
Theorem C9_port_is_truncated :
  forall w argv n,
    2 <= arity argv <= 3 -> atoi (port_arg argv) = n -> n <> 0 ->
    In (Gethostbyname (host_arg argv) (os_gethostbyname w (host_arg argv))) (trace w argv)
    /\ (forall fd addr r, In (Connect fd addr r) (trace w argv) ->
          sin_port addr = htons (host_big_endian w) (n mod 2 ^ 16)
          /\ ntohs (host_big_endian w) (sin_port addr) = n mod 2 ^ 16)
    /\ (forall a, set_up w argv a ->
          In (Connect (handle w) (address w argv a) (conn w argv a)) (trace w argv)).
Proof.
  intros w argv n Harity Hn Hnz. paths w argv; try lia.
  all: listed argv; conds.
  all: match goal with H : os_gethostbyname _ _ = _ |- _ => rewrite H end.
  all: split; [find_event | split].
  all: try (intros fd addr r Hin; pick Hin;
            (cbn [address sin_port]; split; [reflexivity | apply ntohs_htons])).
  all: intros a' S'; conds; try lia; try congruence.
  all: match goal with H : Resolved _ = Resolved _ |- _ => injection H as H; subst end.
  all: find_event.
Qed.

Lemma C9_port_is_truncated_witness :
  2 <= arity ["tcp_connect"; "localhost"; "-1"] <= 3
  /\ atoi "-1" = -1
  /\ In (Connect 3 (inet 65535) (done 0)) (trace w_loopback ["tcp_connect"; "localhost"; "-1"])
  /\ ntohs false (sin_port (inet 65535)) = -1 mod 2 ^ 16.
Proof.
  assert (Ha : 2 <= arity ["tcp_connect"; "localhost"; "-1"] <= 3) by (vm_compute; split; discriminate).
  assert (Hn : atoi (port_arg ["tcp_connect"; "localhost"; "-1"]) = -1) by (vm_compute; reflexivity).
  assert (Hnz : -1 <> 0) by discriminate.
  assert (Hin : In (Connect 3 (inet 65535) (done 0))
                   (trace w_loopback ["tcp_connect"; "localhost"; "-1"]))
    by (vm_compute; find_event).
  destruct (C9_port_is_truncated w_loopback _ _ Ha Hn Hnz) as (_ & Hport & _).
  destruct (Hport _ _ _ Hin) as (_ & Hread).
  split; [exact Ha | split; [vm_compute; reflexivity | split; [exact Hin | exact Hread]]].
Defined.

(** C6 (as amended).  A port argument that [atoi] converts to zero is
    rejected before any network activity, with the error line, the usage
    text and the failure status; the port of every target probed is the
    [atoi] value of the argument, which is not zero, taken modulo 2^16,
    an integer in [0,65535]. *)
Theorem C6_probed_port :
  forall w argv,
    2 <= arity argv <= 3 ->
    (atoi (port_arg argv) = 0 ->
       status w argv = EXIT_FAILURE
       /\ trace w argv =
            Write stderr (line_invalid_port (port_arg argv)) :: usage (name_arg argv)
       /\ no_network_activity (trace w argv) = true)
    /\ (forall fd addr r, In (Connect fd addr r) (trace w argv) ->
          atoi (port_arg argv) <> 0
          /\ ntohs (host_big_endian w) (sin_port addr) = atoi (port_arg argv) mod 2 ^ 16
          /\ 0 <= ntohs (host_big_endian w) (sin_port addr) <= 65535).
Proof.
  intros w argv Harity. paths w argv; try lia.
  all: split; [ | listed argv; intros fd addr r Hin; pick Hin; conds;
                  (cbn [address sin_port]; rewrite ntohs_htons;
                   split; [assumption | split; [reflexivity | ]];
                   pose proof (Z.mod_pos_bound (atoi (port_arg argv)) (2 ^ 16)); lia) ].
  all: intros Hz; conds; try contradiction.
  repeat split; reflexivity.
Qed.

Lemma C6_probed_port_witness :
  2 <= arity probe_http <= 3
  /\ In (Connect 3 (inet 20480) (done 0)) (trace w_loopback probe_http)
  /\ ntohs false (sin_port (inet 20480)) = atoi "80" mod 2 ^ 16.
Proof.
  assert (Ha : 2 <= arity probe_http <= 3) by (vm_compute; split; discriminate).
  assert (Hin : In (Connect 3 (inet 20480) (done 0)) (trace w_loopback probe_http))
    by (vm_compute; find_event).
  destruct (C6_probed_port w_loopback probe_http Ha) as (_ & Hport).
  destruct (Hport _ _ _ Hin) as (_ & Hread & _).
  split; [exact Ha | split; [exact Hin | exact Hread]].
Defined.

(** C6 as stated fails: the port argument 65536 lies outside [1,65535]
    and is not rejected; the address passed to [connect] has port 0,
    which lies outside [1,65535] as well. *)
Lemma C6_port_65536_probed_as_port_0 :
  atoi "65536" = 65536
  /\ In (Connect 3 (inet 0) (failed EINPROGRESS))
        (trace w_rejecting ["tcp_connect"; "localhost"; "65536"])
  /\ ntohs false (sin_port (inet 0)) = 0
  /\ ~ 1 <= ntohs false (sin_port (inet 0)) <= 65535
  /\ no_network_activity (trace w_rejecting ["tcp_connect"; "localhost"; "65536"]) = false.
Proof.
  split; [vm_compute; reflexivity | ].
  split; [vm_compute; find_event | ].
  split; [vm_compute; reflexivity | ].
  split; [vm_compute; intros [H _]; apply H; reflexivity | vm_compute; reflexivity].
Qed.

(** C8 (as amended).  An invocation with an argument count other than 2
    or 3, or whose port argument [atoi] converts to zero (no leading
    numeral, or one of value zero), ends with the failure status before
    any network activity: the run consists of writes to standard error
    only, namely the usage text, preceded by the error line when the
    port is at fault. *)
Theorem C8_malformed_invocation_rejected :
  forall w argv,
    arity argv < 2 \/ 3 < arity argv \/ atoi (port_arg argv) = 0 ->
    status w argv = EXIT_FAILURE
    /\ no_network_activity (trace w argv) = true
    /\ forallb is_stderr (trace w argv) = true
    /\ (trace w argv = usage (name_arg argv)
        \/ trace w argv =
             Write stderr (line_invalid_port (port_arg argv)) :: usage (name_arg argv))
    /\ In (Write stderr
             (sprintf ("Usage: %s [host] [port] (timeout)" ++ LF) [AStr (name_arg argv)]))
          (trace w argv).
Proof.
  intros w argv Hbad. paths w argv; conds; try lia.
  - repeat split; try reflexivity; [left; reflexivity | apply usage_synopsis].
  - repeat split; try reflexivity; [right; reflexivity | right; apply usage_synopsis].
Qed.

Lemma C8_malformed_invocation_witness :
  (arity ["tcp_connect"; "localhost"; "http"] < 2
   \/ 3 < arity ["tcp_connect"; "localhost"; "http"]
   \/ atoi (port_arg ["tcp_connect"; "localhost"; "http"]) = 0)
  /\ status w_loopback ["tcp_connect"; "localhost"; "http"] = EXIT_FAILURE
  /\ no_network_activity (trace w_loopback ["tcp_connect"; "localhost"; "http"]) = true.
Proof.
  assert (Hbad : arity ["tcp_connect"; "localhost"; "http"] < 2
                 \/ 3 < arity ["tcp_connect"; "localhost"; "http"]
                 \/ atoi (port_arg ["tcp_connect"; "localhost"; "http"]) = 0)
    by (right; right; vm_compute; reflexivity).
  destruct (C8_malformed_invocation_rejected w_loopback _ Hbad) as (Hs & Hn & _).
  split; [exact Hbad | split; assumption].
Defined.

(** C8 as stated fails: the port argument 80x is not a number, yet it is
    not rejected; the program probes port 80 and, on this host, exits
    with success. *)
Lemma C8_port_80x_is_probed :
  numeric "80x" = false
  /\ atoi "80x" = 80
  /\ In (Connect 3 (inet 20480) (done 0))
        (trace w_loopback ["tcp_connect"; "localhost"; "80x"])
  /\ no_network_activity (trace w_loopback ["tcp_connect"; "localhost"; "80x"]) = false
  /\ status w_loopback ["tcp_connect"; "localhost"; "80x"] = EXIT_SUCCESS.
Proof.
  split; [vm_compute; reflexivity | ].
  split; [vm_compute; reflexivity | ].
  split; [vm_compute; find_event | ].
  split; vm_compute; reflexivity.
Qed.

(** C5 (as amended).  With a valid argument count and port, the probe
    goes on to resolve the host whatever the timeout argument is; a
    timeout argument that [atoi] converts to zero only adds a warning
    line in front.  The wait is armed with the budget, which is never
    zero: the default 10 when the timeout argument is absent or converts
    to zero, and otherwise the [atoi] value of the argument as it is,
    negative values included. *)
Theorem C5_budget_used :
  forall w argv,
    2 <= arity argv <= 3 -> atoi (port_arg argv) <> 0 ->
    In (Gethostbyname (host_arg argv) (os_gethostbyname w (host_arg argv))) (trace w argv)
    /\ (arity argv = 3 -> atoi (timeout_arg argv) = 0 ->
        exists rest,
          trace w argv =
            Write stderr (line_invalid_timeout (timeout_arg argv))
            :: Gethostbyname (host_arg argv) (os_gethostbyname w (host_arg argv)) :: rest)
    /\ (forall nfds rd wr tv sr, In (Select nfds rd wr tv sr) (trace w argv) ->
          tv_sec tv = budget_of argv
          /\ tv_sec tv <> 0
          /\ (arity argv = 2 \/ atoi (timeout_arg argv) = 0 -> tv_sec tv = DEFAULT_TIMEOUT)
          /\ (arity argv = 3 -> atoi (timeout_arg argv) <> 0 ->
              tv_sec tv = atoi (timeout_arg argv))).
Proof.
  intros w argv Harity Hport. paths w argv; try lia.
  all: listed argv; conds.
  all: match goal with H : os_gethostbyname _ _ = _ |- _ => rewrite H end.
  all: split; [find_event | split].
  all: try (intros Hthree Hzero; first [ tauto | eexists; reflexivity ]).
  all: intros nfds rd wr tv sr Hin; pick Hin.
  all: cbn [armed tv_sec].
  all: split; [reflexivity | split; [apply budget_nonzero | split]].
  all: try (intros [Htwo | Hzero]; [apply budget_absent; lia | apply budget_zero; exact Hzero]).
  all: intros Hthree Hnz; apply budget_used; [lia | exact Hnz].
Qed.

Lemma C5_budget_used_witness :
  2 <= arity ["tcp_connect"; "localhost"; "80"; "soon"] <= 3
  /\ atoi (port_arg ["tcp_connect"; "localhost"; "80"; "soon"]) <> 0
  /\ In (Select 4 [3] [3] {| tv_sec := 10; tv_usec := 0 |} (expired [3] [3]))
        (trace w_filtered ["tcp_connect"; "localhost"; "80"; "soon"])
  /\ tv_sec {| tv_sec := 10; tv_usec := 0 |}
     = budget_of ["tcp_connect"; "localhost"; "80"; "soon"].
Proof.
  assert (Ha : 2 <= arity ["tcp_connect"; "localhost"; "80"; "soon"] <= 3)
    by (vm_compute; split; discriminate).
  assert (Hp : atoi (port_arg ["tcp_connect"; "localhost"; "80"; "soon"]) <> 0)
    by (vm_compute; discriminate).
  assert (Hin : In (Select 4 [3] [3] {| tv_sec := 10; tv_usec := 0 |} (expired [3] [3]))
                   (trace w_filtered ["tcp_connect"; "localhost"; "80"; "soon"]))
    by (vm_compute; find_event).
  destruct (C5_budget_used w_filtered _ Ha Hp) as (_ & _ & Hsel).
  destruct (Hsel _ _ _ _ _ Hin) as (Hb & _).
  split; [exact Ha | split; [exact Hp | split; [exact Hin | exact Hb]]].
Defined.

(** C5 as stated fails: the timeout argument -5 does not parse to a
    positive integer, yet the default is not used; the wait is armed
    with -5 seconds, which is not strictly positive. *)
Lemma C5_negative_timeout_is_used :
  ~ 0 < atoi "-5"
  /\ In (Select 4 [3] [3] {| tv_sec := -5; tv_usec := 0 |} (invalid [3] [3]))
        (trace w_filtered ["tcp_connect"; "localhost"; "80"; "-5"])
  /\ tv_sec {| tv_sec := -5; tv_usec := 0 |} <> DEFAULT_TIMEOUT
  /\ ~ 0 < tv_sec {| tv_sec := -5; tv_usec := 0 |}.
Proof.
  split; [vm_compute; discriminate | ].
  split; [vm_compute; find_event | ].
  split; [discriminate | vm_compute; discriminate].
Qed.

(** ** Where the code departs from the specification *)

(** The exits that release the handle.  Once the socket exists, the run
    closes it exactly when the set-up is completed and the connection
    request either succeeds at once or is in progress; the exits taken
    when an [fcntl] call fails or when [connect] fails at once leave it
    open. *)
Lemma release_of_handle (w : World) (argv : list string) (a : Z) :
  resolves w argv a -> handle w <> -1 ->
  (In (Close (handle w)) (trace w argv)
   <-> set_up w argv a
       /\ (0 <= rv (conn w argv a) \/ errno_conn w argv a = EINPROGRESS)).
Proof.
  intros R Hh. paths w argv; listed argv; conds; try lia; try congruence.
  all: match goal with
       | H : os_gethostbyname ?w ?h = Resolved ?a,
         H' : os_gethostbyname ?w ?h = Resolved ?b |- _ =>
           assert (a = b) by congruence; subst a
       end.
  all: split; [intros Hin | intros (S & Hc)].
  all: try (pick Hin; fail).
  all: try (find_event; fail).
  all: try (conds; lia).
  all: repeat split; try assumption; lia.
Qed.

(** C1 (the code departs from the specification).  On a host where [connect]
    fails at once with ENETUNREACH the program creates descriptor 3,
    prints the diagnostic and exits with failure: the run ends there,
    and the handle is never closed. *)
Example C1_handle_left_open_when_connect_fails :
  run w_unreachable probe_http
  = (EXIT_FAILURE,
     [Gethostbyname "localhost" (Resolved loopback);
      Socket AF_INET SOCK_STREAM 0 (done 3);
      Fcntl 3 F_GETFL 0 (done 2);
      Fcntl 3 F_SETFL (Z.lor 2 O_NONBLOCK) (done 0);
      Connect 3 (inet 20480) (failed ENETUNREACH);
      Write stderr (line_refused "localhost" 80 10 ENETUNREACH "Network is unreachable")])
  /\ calls (is_close 3) (trace w_unreachable probe_http) = 0%nat.
Proof. split; vm_compute; reflexivity. Qed.

(** What the pending-error query decides.  When the handle is queried,
    the run ends with the line for Refused and the failure status if
    the query fails or stores a non-zero pending error, and with the
    success line and the success status otherwise; in both cases the
    handle is released.  The number printed with the Refused line is the
    current [errno], not the pending error. *)
Lemma pending_error_decides (w : World) (argv : list string) (fd : Z) (gr : sockopt_ret) :
  In (Getsockopt fd SOL_SOCKET SO_ERROR gr) (trace w argv) ->
  let e := errno_query w argv in
  (opt_rv gr = -1 \/ pending_error gr <> 0 ->
     status w argv = EXIT_FAILURE
     /\ from is_getsockopt (trace w argv) =
          [Getsockopt fd SOL_SOCKET SO_ERROR gr;
           Write stderr
             (line_refused (host_arg argv) (atoi (port_arg argv)) (budget_of argv) e
                (errtext (strerror w) e));
           Close fd])
  /\ (opt_rv gr <> -1 -> pending_error gr = 0 ->
        status w argv = EXIT_SUCCESS
        /\ from is_getsockopt (trace w argv) =
             [Getsockopt fd SOL_SOCKET SO_ERROR gr;
              Write stdout (line_connected (host_arg argv) (atoi (port_arg argv)));
              Close fd]).
Proof.
  cbv zeta. paths w argv; listed argv.
  all: intros Hin; pick Hin; conds.
  all: split; [intros Hbad | intros Hrv Hpe]; try lia.
  all: split; reflexivity.
Qed.

(** C4 (the code departs from the specification).  On a host where the remote
    end rejects the connection during the wait, [getsockopt] stores the
    pending error ECONNREFUSED (111); the program exits with failure,
    but the diagnostic reports [errno], which is 0, with an empty
    description: the pending error is not surfaced. *)
Example C4_pending_error_is_not_printed :
  run w_rejecting probe_http
  = (EXIT_FAILURE,
     [Gethostbyname "localhost" (Resolved loopback);
      Socket AF_INET SOCK_STREAM 0 (done 3);
      Fcntl 3 F_GETFL 0 (done 2);
      Fcntl 3 F_SETFL (Z.lor 2 O_NONBLOCK) (done 0);
      Connect 3 (inet 20480) (failed EINPROGRESS);
      Select 4 [3] [3] {| tv_sec := 10; tv_usec := 0 |} (writable [3] [3]);
      Getsockopt 3 SOL_SOCKET SO_ERROR (so_error ECONNREFUSED);
      Write stderr (line_refused "localhost" 80 10 0 "");
      Close 3])
  /\ pending_error (so_error ECONNREFUSED) = 111.
Proof. split; vm_compute; reflexivity. Qed.

(** A failed wait.  When [select] returns a negative value the program
    prints no timeout line and goes on to test the descriptor sets as
    [select] left them; if the handle is still a member of one of them,
    the pending-error query is made and its answer alone decides between
    failure and success. *)
Lemma failed_wait_falls_through (w : World) (argv : list string)
  (nfds : Z) (rd wr : fd_set) (tv : timeval) (sr : select_ret) :
  In (Select nfds rd wr tv sr) (trace w argv) -> sel_rv sr < 0 ->
  let fd := nfds - 1 in
  let e := written (sel_errno sr) 0 in
  (FD_ISSET fd (sel_read sr) || FD_ISSET fd (sel_write sr) = true ->
     In (Getsockopt fd SOL_SOCKET SO_ERROR (query w)) (trace w argv)
     /\ (status w argv = EXIT_SUCCESS
         <-> opt_rv (query w) <> -1 /\ pending_error (query w) = 0))
  /\ (FD_ISSET fd (sel_read sr) || FD_ISSET fd (sel_write sr) = false ->
        status w argv = EXIT_FAILURE
        /\ from is_select (trace w argv) =
             [Select nfds rd wr tv sr;
              Write stderr
                (line_no_status (host_arg argv) (atoi (port_arg argv)) (budget_of argv) e
                   (errtext (strerror w) e));
              Close fd]).
Proof.
  cbv zeta. paths w argv; listed argv.
  all: intros Hin Hneg; pick Hin; conds; try lia.
  all: rewrite Z.add_simpl_r; fold (wait w argv).
  all: unfold ready in *.
  all: split; [intros Hready | intros Hnot]; try congruence.
  all: try (split; reflexivity).
  all: split; [find_event | ].
  all: split; [ | intros [Hrv Hpe]]; try reflexivity; try discriminate; try lia.
  all: intros _; split; assumption.
Qed.

(** C10 (the code departs from the specification).  On a host where [select]
    fails with EINTR and leaves both sets as they were passed, the
    handle is still a member, the pending-error query reports zero for
    the connection that is still in progress, and the program prints the
    success line and exits with success: a failed wait is reported as
    Connected, not as a failure.  The same happens without any signal
    when the timeout argument is negative, since [select] then fails
    with EINVAL. *)
Example C10_failed_wait_reported_as_connected :
  run w_interrupted probe_http
  = (EXIT_SUCCESS,
     [Gethostbyname "localhost" (Resolved loopback);
      Socket AF_INET SOCK_STREAM 0 (done 3);
      Fcntl 3 F_GETFL 0 (done 2);
      Fcntl 3 F_SETFL (Z.lor 2 O_NONBLOCK) (done 0);
      Connect 3 (inet 20480) (failed EINPROGRESS);
      Select 4 [3] [3] {| tv_sec := 10; tv_usec := 0 |} (interrupted [3] [3]);
      Getsockopt 3 SOL_SOCKET SO_ERROR (so_error 0);
      Write stdout (line_connected "localhost" 80);
      Close 3])
  /\ sel_rv (interrupted [3] [3]) = -1
  /\ run w_filtered ["tcp_connect"; "localhost"; "80"; "-5"]
     = (EXIT_SUCCESS,
        [Gethostbyname "localhost" (Resolved loopback);
         Socket AF_INET SOCK_STREAM 0 (done 3);
         Fcntl 3 F_GETFL 0 (done 2);
         Fcntl 3 F_SETFL (Z.lor 2 O_NONBLOCK) (done 0);
         Connect 3 (inet 20480) (failed EINPROGRESS);
         Select 4 [3] [3] {| tv_sec := -5; tv_usec := 0 |} (invalid [3] [3]);
         Getsockopt 3 SOL_SOCKET SO_ERROR (so_error 0);
         Write stdout (line_connected "localhost" 80);
         Close 3])
  /\ sel_rv (invalid [3] [3]) = -1.
Proof. repeat split; vm_compute; reflexivity. Qed.

(** * Further properties of [main] and [print_usage] *)

(** ** The exits before the connection request *)

(** X1.  When the resolver has no entry for the host argument, the
    program prints the resolution diagnostic with [h_errno] and its
    description (empty unless [h_errno] is positive) and exits with
    failure; it creates no socket. *)
Theorem X1_unresolved_host_stops_the_probe :
  forall w argv name h,
    In (Gethostbyname name (Unresolved h)) (trace w argv) ->
    name = host_arg argv
    /\ status w argv = EXIT_FAILURE
    /\ from is_resolve (trace w argv) =
         [Gethostbyname name (Unresolved h);
          Write stderr (line_unresolved name h (errtext (hstrerror w) h))]
    /\ calls is_socket (trace w argv) = 0%nat.
Proof.
  intros w argv name h. paths w argv; listed argv.
  all: intros Hin; pick Hin.
  all: repeat split; reflexivity.
Qed.

Lemma X1_unresolved_host_witness :
  In (Gethostbyname "nowhere" (Unresolved 1)) (trace w_loopback probe_nowhere)
  /\ status w_loopback probe_nowhere = EXIT_FAILURE
  /\ calls is_socket (trace w_loopback probe_nowhere) = 0%nat.
Proof.
  assert (Hin : In (Gethostbyname "nowhere" (Unresolved 1)) (trace w_loopback probe_nowhere))
    by (vm_compute; find_event).
  destruct (X1_unresolved_host_stops_the_probe _ _ _ _ Hin) as (_ & Hs & _ & Hc).
  split; [exact Hin | split; assumption].
Defined.

(** X2.  When [socket] returns -1 the program prints the socket
    diagnostic with the [errno] that call left and exits with failure;
    neither [fcntl] nor [connect] is called. *)
Theorem X2_socket_failure_stops_the_probe :
  forall w argv domain type protocol r,
    In (Socket domain type protocol r) (trace w argv) -> rv r = -1 ->
    let e := written (rerrno r) 0 in
    status w argv = EXIT_FAILURE
    /\ from is_socket (trace w argv) =
         [Socket AF_INET SOCK_STREAM 0 r;
          Write stderr (line_no_socket e (errtext (strerror w) e))]
    /\ calls is_fcntl (trace w argv) = 0%nat
    /\ calls is_connect (trace w argv) = 0%nat.
Proof.
  intros w argv domain type protocol r. cbv zeta. paths w argv; listed argv.
  all: intros Hin Hr; pick Hin; conds; try contradiction.
  all: repeat split; reflexivity.
Qed.

Lemma X2_socket_failure_witness :
  In (Socket AF_INET SOCK_STREAM 0 (failed EMFILE)) (trace w_exhausted probe_http)
  /\ rv (failed EMFILE) = -1
  /\ status w_exhausted probe_http = EXIT_FAILURE
  /\ calls is_connect (trace w_exhausted probe_http) = 0%nat.
Proof.
  assert (Hin : In (Socket AF_INET SOCK_STREAM 0 (failed EMFILE))
                   (trace w_exhausted probe_http)) by (vm_compute; find_event).
  pose proof (X2_socket_failure_stops_the_probe _ _ _ _ _ _ Hin eq_refl) as H.
  cbv zeta in H. destruct H as (Hs & _ & _ & Hc).
  split; [exact Hin | split; [reflexivity | split; assumption]].
Defined.

(** X3.  When either [fcntl] call returns -1 the program exits with
    failure without calling [connect]: after a failed F_GETFL it prints
    the flags diagnostic and makes no second [fcntl] call, after a
    failed F_SETFL it prints the non-blocking diagnostic; each carries
    the [errno] of the moment. *)
Theorem X3_fcntl_failure_stops_the_probe :
  forall w argv fd cmd arg r,
    In (Fcntl fd cmd arg r) (trace w argv) -> rv r = -1 ->
    status w argv = EXIT_FAILURE
    /\ calls is_connect (trace w argv) = 0%nat
    /\ (cmd = F_GETFL ->
        calls is_fcntl (trace w argv) = 1%nat
        /\ In (Write stderr
                 (line_no_flags (errno_getfl w) (errtext (strerror w) (errno_getfl w))))
              (trace w argv))
    /\ (cmd = F_SETFL ->
        calls is_fcntl (trace w argv) = 2%nat
        /\ In (Write stderr
                 (line_not_nonblocking (errno_setfl w) (errtext (strerror w) (errno_setfl w))))
              (trace w argv)).
Proof.
  intros w argv fd cmd arg r. paths w argv; listed argv.
  all: intros Hin Hr; pick Hin; conds; try contradiction.
  all: split; [reflexivity | split; [reflexivity | split]].
  all: intros Hcmd; try discriminate Hcmd.
  all: split; [reflexivity | find_event].
Qed.

Lemma X3_fcntl_failure_witness :
  In (Fcntl 3 F_SETFL (Z.lor 2 O_NONBLOCK) (failed EINVAL)) (trace w_fixed_flags probe_http)
  /\ rv (failed EINVAL) = -1
  /\ status w_fixed_flags probe_http = EXIT_FAILURE
  /\ calls is_connect (trace w_fixed_flags probe_http) = 0%nat.
Proof.
  assert (Hin : In (Fcntl 3 F_SETFL (Z.lor 2 O_NONBLOCK) (failed EINVAL))
                   (trace w_fixed_flags probe_http)) by (vm_compute; find_event).
  destruct (X3_fcntl_failure_stops_the_probe _ _ _ _ _ _ Hin eq_refl) as (Hs & Hc & _).
  split; [exact Hin | split; [reflexivity | split; assumption]].
Defined.

(** ** The connection request *)

Lemma lor_keeps_right (a b : Z) : Z.land (Z.lor a b) b = b.
Proof.
  apply Z.bits_inj'; intros n _.
  rewrite Z.land_spec, Z.lor_spec.
  destruct (Z.testbit a n), (Z.testbit b n); reflexivity.
Qed.

Lemma lor_keeps_left (a b : Z) : Z.land (Z.lor a b) a = a.
Proof. rewrite Z.lor_comm. apply lor_keeps_right. Qed.

(** X4.  The handle is non-blocking before any connection request: a
    [connect] call is made only after F_GETFL has succeeded on the same
    descriptor and F_SETFL has succeeded with an argument that contains
    O_NONBLOCK and every flag F_GETFL returned. *)
Theorem X4_connect_only_on_nonblocking_handle :
  forall w argv fd addr r,
    In (Connect fd addr r) (trace w argv) ->
    let flags := rv (getfl w) in
    let arg := Z.lor flags O_NONBLOCK in
    In (Fcntl fd F_GETFL 0 (getfl w)) (trace w argv)
    /\ flags <> -1
    /\ In (Fcntl fd F_SETFL arg (setfl w)) (trace w argv)
    /\ rv (setfl w) <> -1
    /\ Z.land arg O_NONBLOCK = O_NONBLOCK
    /\ Z.land arg flags = flags.
Proof.
  intros w argv fd addr r. cbv zeta. paths w argv; listed argv.
  all: intros Hin; pick Hin; conds.
  all: split; [find_event | split; [assumption | split; [find_event | split; [assumption | ]]]].
  all: split; [apply lor_keeps_right | apply lor_keeps_left].
Qed.

Lemma X4_connect_only_on_nonblocking_handle_witness :
  In (Connect 3 (inet 20480) (failed EINPROGRESS)) (trace w_listening probe_http)
  /\ In (Fcntl 3 F_SETFL (Z.lor 2 O_NONBLOCK) (done 0)) (trace w_listening probe_http).
Proof.
  assert (Hin : In (Connect 3 (inet 20480) (failed EINPROGRESS)) (trace w_listening probe_http))
    by (vm_compute; find_event).
  pose proof (X4_connect_only_on_nonblocking_handle _ _ _ _ _ Hin) as H.
  cbv zeta in H. destruct H as (_ & _ & Hset & _).
  split; [exact Hin | exact Hset].
Defined.

(** X5.  Every connection request goes to the address the resolver
    returned for the host argument, in the family AF_INET, on the
    descriptor that the one [socket (AF_INET, SOCK_STREAM, 0)] call of
    the run returned. *)
Theorem X5_connect_target :
  forall w argv fd addr r,
    In (Connect fd addr r) (trace w argv) ->
    In (Socket AF_INET SOCK_STREAM 0 (sock w)) (trace w argv)
    /\ calls is_socket (trace w argv) = 1%nat
    /\ fd = rv (sock w) /\ fd <> -1
    /\ sin_family addr = AF_INET
    /\ os_gethostbyname w (host_arg argv) = Resolved (sin_addr addr)
    /\ r = os_connect w fd addr.
Proof.
  intros w argv fd addr r. paths w argv; listed argv.
  all: intros Hin; pick Hin; conds.
  all: split; [find_event | ].
  all: repeat split; try reflexivity; assumption.
Qed.

Lemma X5_connect_target_witness :
  In (Connect 3 (inet 20480) (done 0)) (trace w_loopback probe_http)
  /\ os_gethostbyname w_loopback (host_arg probe_http) = Resolved (sin_addr (inet 20480)).
Proof.
  assert (Hin : In (Connect 3 (inet 20480) (done 0)) (trace w_loopback probe_http))
    by (vm_compute; find_event).
  destruct (X5_connect_target _ _ _ _ _ Hin) as (_ & _ & _ & _ & _ & Hres & _).
  split; [exact Hin | exact Hres].
Defined.

(** X6.  When [connect] returns a negative value and leaves an [errno]
    other than EINPROGRESS, the program prints the connect diagnostic
    with host, port, budget, that [errno] and its description, and exits
    with failure without waiting: neither [select] nor [getsockopt] is
    called. *)
Theorem X6_immediate_connect_failure :
  forall w argv fd addr r e,
    In (Connect fd addr r) (trace w argv) ->
    rv r < 0 -> rerrno r = Some e -> e <> EINPROGRESS ->
    status w argv = EXIT_FAILURE
    /\ In (Write stderr
             (line_refused (host_arg argv) (atoi (port_arg argv)) (budget_of argv) e
                (errtext (strerror w) e)))
          (trace w argv)
    /\ calls is_select (trace w argv) = 0%nat
    /\ calls is_getsockopt (trace w argv) = 0%nat.
Proof.
  intros w argv fd addr r e. paths w argv; listed argv.
  all: intros Hin Hr He Hne; pick Hin; conds; try lia.
  all: try (unfold errno_conn in *; rewrite He in *; cbn [written] in *; contradiction).
  all: unfold errno_conn; rewrite He; cbn [written].
  all: split; [reflexivity | split; [find_event | split; reflexivity]].
Qed.

Lemma X6_immediate_connect_failure_witness :
  In (Connect 3 (inet 20480) (failed ENETUNREACH)) (trace w_unreachable probe_http)
  /\ status w_unreachable probe_http = EXIT_FAILURE
  /\ calls is_select (trace w_unreachable probe_http) = 0%nat.
Proof.
  assert (Hin : In (Connect 3 (inet 20480) (failed ENETUNREACH))
                   (trace w_unreachable probe_http)) by (vm_compute; find_event).
  assert (Hr : rv (failed ENETUNREACH) < 0) by (vm_compute; reflexivity).
  assert (Hne : ENETUNREACH <> EINPROGRESS) by discriminate.
  destruct (X6_immediate_connect_failure _ _ _ _ _ _ Hin Hr eq_refl Hne) as (Hs & _ & Hc & _).
  split; [exact Hin | split; assumption].
Defined.

(** ** The wait and the query *)







(** ** The run as a whole *)

(** X10.  The calls of every run follow one fixed order, each made at
    most once and never repeated: resolve, socket, F_GETFL, F_SETFL,
    connect, select, query.  A run makes some initial part of this
    sequence, possibly followed by one release of the handle, which then
    is the last call and comes after [connect]; the handle released is
    the one [socket] returned. *)
Theorem X10_calls_follow_the_protocol :
  forall w argv,
    (exists n,
       sequence (trace w argv) = firstn n protocol
       \/ ((5 <= n)%nat /\ sequence (trace w argv) = firstn n protocol ++ [CClose]))
    /\ (forall fd, In (Close fd) (trace w argv) -> fd = handle w).
Proof.
  intros w argv. paths w argv; listed argv.
  all: split; [ | intros fd Hin; pick Hin; reflexivity].
  1-4: exists 0%nat; left; reflexivity.
  1-2: exists 1%nat; left; reflexivity.
  1-2: exists 2%nat; left; reflexivity.
  1-2: exists 3%nat; left; reflexivity.
  1-2: exists 4%nat; left; reflexivity.
  1-2: exists 5%nat; left; reflexivity.
  1-2: exists 5%nat; right; split; [lia | reflexivity].
  1-4: exists 6%nat; right; split; [lia | reflexivity].
  all: exists 7%nat; right; split; [lia | reflexivity].
Qed.

(** X11.  Standard output is reserved for the success line: a run that
    exits with failure writes nothing to standard output and at least
    one line to standard error, and a run that exits with success writes
    exactly one line to standard output and nothing to standard error
    but the timeout warning, if any. *)
Theorem X11_streams_by_outcome :
  forall w argv,
    (status w argv = EXIT_FAILURE ->
       calls is_stdout (trace w argv) = 0%nat
       /\ (1 <= calls is_stderr (trace w argv))%nat)
    /\ (status w argv = EXIT_SUCCESS ->
          filter is_stdout (trace w argv) =
            [Write stdout (line_connected (host_arg argv) (atoi (port_arg argv)))]
          /\ filter is_stderr (trace w argv) = warning argv).
Proof.
  intros w argv. paths w argv.
  1-2: split; [intros _; split; [reflexivity | vm_compute; lia] | discriminate].
  all: listed argv.
  all: split; [intros Hs; try discriminate Hs | intros Hs; try discriminate Hs].
  all: try (split; [reflexivity | vm_compute; lia]).
  all: split; reflexivity.
Qed.

(** ** The timeout argument *)

(** X12.  A timeout argument that [atoi] converts to zero changes
    nothing but the warning: the run has the exit status of the run
    without the argument and the same events, preceded by the warning
    line. *)
Theorem X12_rejected_timeout_is_the_default :
  forall w name host port timeout,
    atoi timeout = 0 ->
    status w [name; host; port; timeout] = status w [name; host; port]
    /\ trace w [name; host; port; timeout] =
         (if atoi port =? 0 then [] else [Write stderr (line_invalid_timeout timeout)])
         ++ trace w [name; host; port].
Proof.
  intros w name host port timeout Hz.
  unfold status, trace, run, main, line_invalid_timeout.
  cbv zeta. cbn [List.length nth].
  change (Z.of_nat 4) with 4. change (Z.of_nat 3) with 3.
  change ((4 <? 3) || (4 >? 4)) with false.
  change ((3 <? 3) || (3 >? 4)) with false.
  change (4 =? 4) with true. change (3 =? 4) with false.
  cbv iota. rewrite Hz. change (0 =? ZERO) with true. cbv iota.
  destruct (atoi port =? ZERO) eqn:Hp.
  - change (atoi port =? 0) with (atoi port =? ZERO). rewrite Hp. split; reflexivity.
  - change (atoi port =? 0) with (atoi port =? ZERO). rewrite Hp.
    run_cases; split; reflexivity.
Qed.

Lemma X12_rejected_timeout_witness :
  atoi "soon" = 0
  /\ status w_filtered ["tcp_connect"; "localhost"; "80"; "soon"] = status w_filtered probe_http.
Proof.
  assert (Hz : atoi "soon" = 0) by (vm_compute; reflexivity).
  destruct (X12_rejected_timeout_is_the_default w_filtered "tcp_connect" "localhost" "80" "soon" Hz)
    as (Hs & _).
  split; [exact Hz | exact Hs].
Defined.

(** X13.  The timeout argument acts through its [atoi] value only: a
    run with a timeout argument that converts to the default 10 is, in
    status and events, the run without the argument. *)
Theorem X13_explicit_default_timeout :
  forall w name host port timeout,
    atoi timeout = DEFAULT_TIMEOUT ->
    run w [name; host; port; timeout] = run w [name; host; port].
Proof.
  intros w name host port timeout Hd.
  unfold run, main.
  cbv zeta. cbn [List.length nth].
  change (Z.of_nat 4) with 4. change (Z.of_nat 3) with 3.
  change ((4 <? 3) || (4 >? 4)) with false.
  change ((3 <? 3) || (3 >? 4)) with false.
  change (4 =? 4) with true. change (3 =? 4) with false.
  cbv iota. rewrite Hd. change (DEFAULT_TIMEOUT =? ZERO) with false. cbv iota.
  run_cases; reflexivity.
Qed.

Lemma X13_explicit_default_timeout_witness :
  atoi " 10s" = DEFAULT_TIMEOUT
  /\ run w_filtered ["tcp_connect"; "localhost"; "80"; " 10s"] = run w_filtered probe_http.
Proof.
  assert (Hd : atoi " 10s" = DEFAULT_TIMEOUT) by (vm_compute; reflexivity).
  split; [exact Hd | ].
  exact (X13_explicit_default_timeout w_filtered "tcp_connect" "localhost" "80" " 10s" Hd).
Defined.
